(** * ST7565 graphic LCD driver (adafruit_st7565.py)

    A shallow embedding of the [ST7565] class: the driver object is a
    record, its methods are programs of a small state-and-exception monad
    over a [world] holding the object, the chronological log of everything
    the driver did to its collaborators (GPIO pins, the SPI device, the
    clock) and the outcomes the bus transport is going to give to the next
    writes.  Python integers are [Z], a [bytearray] is a [list Z]. *)

From Stdlib Require Import ZArith QArith List Bool Lia.
Import ListNotations.
Open Scope Z_scope.

(** ** Python values used by the driver *)

Module Py.

Inductive exn : Type :=
| OSError (errno : Z)
| ValueError
| IndexError.

Definition is_byte (x : Z) : bool := (0 <=? x) && (x <? 256).

(** [bytearray(n)]: [n] zero bytes. *)
Definition zeros (n : Z) : list Z := repeat 0 (Z.to_nat n).

(** Bound of a slice [b[start:stop]] on a sequence of length [n]. *)
Definition slice_index (n i : Z) : Z :=
  if i <? 0 then Z.max 0 (i + n) else Z.min i n.

(** [b[start:stop]] *)
Definition slice (b : list Z) (start stop : Z) : list Z :=
  let n := Z.of_nat (length b) in
  let lo := slice_index n start in
  let hi := slice_index n stop in
  firstn (Z.to_nat (hi - lo)) (skipn (Z.to_nat lo) b).

(** [t[i]] on a tuple: [None] stands for IndexError. *)
Definition index (t : list Z) (i : Z) : option Z :=
  let n := Z.of_nat (length t) in
  let j := if i <? 0 then i + n else i in
  if (0 <=? j) && (j <? n) then nth_error t (Z.to_nat j) else None.

End Py.

(** ** Collaborators and the log of what the driver does to them *)

Inductive pin : Type := DC | RST.

Inductive event : Type :=
| SwitchToOutput (p : pin) (value : bool)   (* p.switch_to_output(value=...) *)
| NewSPIDevice (baudrate : Z)               (* spi_device.SPIDevice(spi, cs_pin, baudrate=...) *)
| SetValue (p : pin) (value : bool)         (* p.value = ... *)
| Sleep (seconds : Q)                       (* time.sleep(...) *)
| SpiEnter                                  (* with self.spi_device as spi: *)
| SpiWrite (data : list Z) (raised : option Py.exn)   (* spi.write(data) and what it raised *)
| SpiExit.                                  (* end of the with block *)

(** ** The driver object *)

Record ST7565 : Type := mkST7565 {
  _reset_pin : bool;          (* is there a reset pin (truthiness of [self._reset_pin]) *)
  buffer : list Z;
  _contrast : option Z;       (* [None] until the constructor has set the contrast *)
  _invert : bool
}.

Record world : Type := mkWorld {
  self : ST7565;
  trace : list event;
  faults : list (option Py.exn)   (* what the next bus writes raise; none once exhausted *)
}.

(** ** Programs: state plus exceptions.  The state survives an exception. *)

Inductive result (A : Type) : Type :=
| Ok (a : A)
| Raise (e : Py.exn).
Arguments Ok {A} a.
Arguments Raise {A} e.

Definition M (A : Type) : Type := world -> result A * world.

Definition ret {A} (a : A) : M A := fun w => (Ok a, w).

Definition raise {A} (e : Py.exn) : M A := fun w => (Raise e, w).

Definition bind {A B} (m : M A) (k : A -> M B) : M B :=
  fun w => match m w with
           | (Ok a, w') => k a w'
           | (Raise e, w') => (Raise e, w')
           end.

Notation "x <- m ;; k" := (bind m (fun x => k))
  (at level 61, m at next level, right associativity).
Notation "m ;; k" := (bind m (fun _ => k))
  (at level 61, right associativity).

Fixpoint for_each {A} (l : list A) (body : A -> M unit) : M unit :=
  match l with
  | [] => ret tt
  | x :: l' => body x ;; for_each l' body
  end.

Definition log (e : event) : M unit :=
  fun w => (Ok tt, mkWorld (self w) (trace w ++ [e]) (faults w)).

Definition get_self : M ST7565 := fun w => (Ok (self w), w).

Definition put_self (s : ST7565) : M unit :=
  fun w => (Ok tt, mkWorld s (trace w) (faults w)).

Definition set__reset_pin (v : bool) : M unit :=
  s <- get_self ;; put_self (mkST7565 v (buffer s) (_contrast s) (_invert s)).
Definition set_buffer (v : list Z) : M unit :=
  s <- get_self ;; put_self (mkST7565 (_reset_pin s) v (_contrast s) (_invert s)).
Definition set__contrast (v : option Z) : M unit :=
  s <- get_self ;; put_self (mkST7565 (_reset_pin s) (buffer s) v (_invert s)).
Definition set__invert (v : bool) : M unit :=
  s <- get_self ;; put_self (mkST7565 (_reset_pin s) (buffer s) (_contrast s) v).

(** [bytearray([x, ...])] raises ValueError on an element outside range(256). *)
Definition bytearray (l : list Z) : M (list Z) :=
  if forallb Py.is_byte l then ret l else raise Py.ValueError.

Definition getitem (t : list Z) (i : Z) : M Z :=
  match Py.index t i with
  | Some x => ret x
  | None => raise Py.IndexError
  end.

(** [spi.write(data)]: the transport decides whether it raises. *)
Definition spi_write (data : list Z) : M unit :=
  fun w => match faults w with
           | Some e :: fs =>
               (Raise e, mkWorld (self w) (trace w ++ [SpiWrite data (Some e)]) fs)
           | None :: fs =>
               (Ok tt, mkWorld (self w) (trace w ++ [SpiWrite data None]) fs)
           | [] =>
               (Ok tt, mkWorld (self w) (trace w ++ [SpiWrite data None]) [])
           end.

(** [with self.spi_device as spi: body]: the device is released on every
    path and an exception of the body goes on to the caller. *)
Definition with_spi {A} (body : M A) : M A :=
  fun w => match body (mkWorld (self w) (trace w ++ [SpiEnter]) (faults w)) with
           | (r, w') => (r, mkWorld (self w') (trace w' ++ [SpiExit]) (faults w'))
           end.

(** ** class ST7565 *)

Definition LCDWIDTH : Z := 128.
Definition LCDHEIGHT : Z := 64.

Definition pagemap : list Z := [0; 1; 2; 3; 4; 5; 6; 7].

Definition CMD_DISPLAY_OFF : Z := 0xAE.
Definition CMD_DISPLAY_ON : Z := 0xAF.
Definition CMD_SET_DISP_START_LINE : Z := 0x40.
Definition CMD_SET_PAGE : Z := 0xB0.
Definition CMD_SET_COLUMN_UPPER : Z := 0x10.
Definition CMD_SET_COLUMN_LOWER : Z := 0x00.
Definition CMD_SET_ADC_NORMAL : Z := 0xA0.
Definition CMD_SET_ADC_REVERSE : Z := 0xA1.
Definition CMD_SET_DISP_NORMAL : Z := 0xA6.
Definition CMD_SET_DISP_REVERSE : Z := 0xA7.
Definition CMD_SET_ALLPTS_NORMAL : Z := 0xA4.
Definition CMD_SET_ALLPTS_ON : Z := 0xA5.
Definition CMD_SET_BIAS_9 : Z := 0xA2.
Definition CMD_SET_BIAS_7 : Z := 0xA3.
Definition CMD_INTERNAL_RESET : Z := 0xE2.
Definition CMD_SET_COM_NORMAL : Z := 0xC0.
Definition CMD_SET_COM_REVERSE : Z := 0xC8.
Definition CMD_SET_POWER_CONTROL : Z := 0x28.
Definition CMD_SET_RESISTOR_RATIO : Z := 0x20.
Definition CMD_SET_VOLUME_FIRST : Z := 0x81.
Definition CMD_SET_VOLUME_SECOND : Z := 0x00.
Definition CMD_SET_STATIC_OFF : Z := 0xAC.
Definition CMD_SET_STATIC_ON : Z := 0xAD.
Definition CMD_SET_STATIC_REG : Z := 0x00.

Definition reset : M unit :=
  s <- get_self ;;
  if _reset_pin s then
    log (SetValue RST false) ;;
    log (Sleep 0.5) ;;
    log (SetValue RST true) ;;
    log (Sleep 0.5)
  else ret tt.

Definition write_cmd (cmd : Z) : M unit :=
  log (SetValue DC false) ;;
  with_spi (b <- bytearray [cmd] ;; spi_write b).

Definition show_page (page : Z) : M unit :=
  phys <- getitem pagemap page ;;
  write_cmd (Z.lor CMD_SET_PAGE phys) ;;
  write_cmd (Z.lor CMD_SET_COLUMN_LOWER (Z.land 0 0xF)) ;;
  write_cmd (Z.lor CMD_SET_COLUMN_UPPER (Z.land (Z.shiftr 0 4) 0xF)) ;;
  let row_start := Z.shiftl page 7 in
  let row_stop := Z.shiftl (page + 1) 7 in
  log (SetValue DC true) ;;
  with_spi (s <- get_self ;; spi_write (Py.slice (buffer s) row_start row_stop)).

Definition show : M unit := for_each pagemap show_page.

Definition invert : M bool := s <- get_self ;; ret (_invert s).

Definition invert_setter (val : bool) : M unit :=
  set__invert val ;;
  if val then write_cmd CMD_SET_DISP_REVERSE
  else write_cmd CMD_SET_DISP_NORMAL.

Definition contrast : M (option Z) := s <- get_self ;; ret (_contrast s).

Definition contrast_setter (val : Z) : M unit :=
  set__contrast (Some (Z.max 0 (Z.min val 0x7F))) ;;
  write_cmd CMD_SET_VOLUME_FIRST ;;
  s <- get_self ;;
  match _contrast s with
  | Some c => write_cmd (Z.lor CMD_SET_VOLUME_SECOND (Z.land c 0x3F))
  | None => raise Py.ValueError   (* TypeError in Python; [_contrast] was just set *)
  end.

(** The framebuffer constructor called through [super()] belongs to the
    framebuf module: it keeps a reference to [self.buffer] and the two
    dimensions and touches neither the pins, the bus nor the fields below. *)
Definition __init__ (reset_pin : bool) (contrast : Z) (baudrate : Z) : M unit :=
  log (SwitchToOutput DC false) ;;
  log (NewSPIDevice baudrate) ;;
  set__reset_pin reset_pin ;;
  (if reset_pin then log (SwitchToOutput RST true) else ret tt) ;;
  set_buffer (Py.zeros (LCDHEIGHT * LCDWIDTH)) ;;
  set__contrast None ;;
  set__invert false ;;
  reset ;;
  write_cmd CMD_SET_BIAS_7 ;;
  write_cmd CMD_SET_ADC_REVERSE ;;
  write_cmd CMD_SET_COM_NORMAL ;;
  write_cmd CMD_SET_DISP_START_LINE ;;
  write_cmd (Z.lor CMD_SET_POWER_CONTROL 0x4) ;;
  log (Sleep 0.05) ;;
  write_cmd (Z.lor CMD_SET_POWER_CONTROL 0x6) ;;
  log (Sleep 0.05) ;;
  write_cmd (Z.lor CMD_SET_POWER_CONTROL 0x7) ;;
  log (Sleep 0.01) ;;
  write_cmd (Z.lor CMD_SET_RESISTOR_RATIO 0x7) ;;
  write_cmd CMD_DISPLAY_ON ;;
  write_cmd CMD_SET_ALLPTS_NORMAL ;;
  contrast_setter contrast.

(** The world in which a driver is constructed: no object yet, nothing
    logged, and a transport that will answer the writes with [fs]. *)
Definition blank : ST7565 := mkST7565 false [] None false.
Definition boot (fs : list (option Py.exn)) : world := mkWorld blank [] fs.

(** ** Straight-line scripts
    Every method of the driver is a fixed sequence of actions on its
    collaborators, cut short by the first bus write that raises.  A script
    lists the actions; [unroll] says what a transport with the given pending
    outcomes makes of it. *)

Inductive action : Type :=
| Configure (p : pin) (value : bool)
| Attach (baudrate : Z)
| Drive (p : pin) (value : bool)
| Pause (seconds : Q)
| Transfer (dc : bool) (data : list Z).

(** One scoped bus write with the data/command line set first. *)
Definition sent (dc : bool) (data : list Z) (raised : option Py.exn) : list event :=
  [SetValue DC dc; SpiEnter; SpiWrite data raised; SpiExit].

(** The events of an action that goes through. *)
Definition events_of (a : action) : list event :=
  match a with
  | Configure p v => [SwitchToOutput p v]
  | Attach b => [NewSPIDevice b]
  | Drive p v => [SetValue p v]
  | Pause d => [Sleep d]
  | Transfer dc data => sent dc data None
  end.

Definition outcome : Type := list event * list (option Py.exn) * option Py.exn.

Fixpoint unroll (p : list action) (fs : list (option Py.exn)) : outcome :=
  match p with
  | [] => ([], fs, None)
  | Transfer dc data :: p' =>
      match fs with
      | Some e :: fs' => (sent dc data (Some e), fs', Some e)
      | _ => let '(evs, fs', r) := unroll p' (tl fs) in
             (sent dc data None ++ evs, fs', r)
      end
  | a :: p' => let '(evs, fs', r) := unroll p' fs in (events_of a ++ evs, fs', r)
  end.

Definition settle (s : ST7565) (tr : list event) (o : outcome) : result unit * world :=
  let '(evs, fs, r) := o in
  (match r with None => Ok tt | Some e => Raise e end, mkWorld s (tr ++ evs) fs).

(** [m], run on the object [s], does what the script [p] says and leaves
    [s] as it is. *)
Definition follows (m : M unit) (s : ST7565) (p : list action) : Prop :=
  forall tr fs, m (mkWorld s tr fs) = settle s tr (unroll p fs).

Definition transfers (p : list action) : nat :=
  length (filter (fun a => match a with Transfer _ _ => true | _ => false end) p).

Definition healthy (fs : list (option Py.exn)) : Prop := Forall (fun o => o = None) fs.

(** The scripts of the methods. *)

Definition reset_script (has_reset : bool) : list action :=
  if has_reset then [Drive RST false; Pause 0.5; Drive RST true; Pause 0.5] else [].

Definition page_script (buf : list Z) (page : Z) : list action :=
  [Transfer false [Z.lor CMD_SET_PAGE page];
   Transfer false [CMD_SET_COLUMN_LOWER];
   Transfer false [CMD_SET_COLUMN_UPPER];
   Transfer true (Py.slice buf (Z.shiftl page 7) (Z.shiftl (page + 1) 7))].

Definition show_script (buf : list Z) : list action :=
  flat_map (page_script buf) pagemap.

Definition clamp (val : Z) : Z := Z.max 0 (Z.min val 0x7F).

Definition contrast_script (val : Z) : list action :=
  [Transfer false [CMD_SET_VOLUME_FIRST];
   Transfer false [Z.lor CMD_SET_VOLUME_SECOND (Z.land (clamp val) 0x3F)]].

Definition invert_script (val : bool) : list action :=
  [Transfer false [if val then CMD_SET_DISP_REVERSE else CMD_SET_DISP_NORMAL]].

Definition power_up_script : list action :=
  [Transfer false [CMD_SET_BIAS_7];
   Transfer false [CMD_SET_ADC_REVERSE];
   Transfer false [CMD_SET_COM_NORMAL];
   Transfer false [CMD_SET_DISP_START_LINE];
   Transfer false [Z.lor CMD_SET_POWER_CONTROL 0x4];
   Pause 0.05;
   Transfer false [Z.lor CMD_SET_POWER_CONTROL 0x6];
   Pause 0.05;
   Transfer false [Z.lor CMD_SET_POWER_CONTROL 0x7];
   Pause 0.01;
   Transfer false [Z.lor CMD_SET_RESISTOR_RATIO 0x7];
   Transfer false [CMD_DISPLAY_ON];
   Transfer false [CMD_SET_ALLPTS_NORMAL]].

Definition init_script (reset_pin : bool) (contrast : Z) (baudrate : Z) : list action :=
  [Configure DC false; Attach baudrate]
  ++ (if reset_pin then [Configure RST true] else [])
  ++ reset_script reset_pin
  ++ power_up_script
  ++ contrast_script contrast.

(** ** Vocabulary of the statements *)

(** A bus write, given by the level of the data/command line and the
    block, as an action. *)
Definition transfer_of (t : bool * list Z) : action := Transfer (fst t) (snd t).

(** [m] first does what the script [p] says on the object [s]; when no
    write of [p] raises it goes on as [k]. *)
Definition runs_then (m : M unit) (s : ST7565) (p : list action) (k : M unit) : Prop :=
  forall tr fs,
    m (mkWorld s tr fs) =
    match unroll p fs with
    | (evs, fs', Some e) => (Raise e, mkWorld s (tr ++ evs) fs')
    | (evs, fs', None) => k (mkWorld s (tr ++ evs) fs')
    end.

Definition with_contrast (s : ST7565) (v : option Z) : ST7565 :=
  mkST7565 (_reset_pin s) (buffer s) v (_invert s).

Definition with_invert (s : ST7565) (v : bool) : ST7565 :=
  mkST7565 (_reset_pin s) (buffer s) (_contrast s) v.

(** The object the constructor leaves behind: the contrast is cached once
    the power-up commands have all gone through. *)
Definition init_object (reset_pin : bool) (contrast : Z)
           (fs : list (option Py.exn)) : ST7565 :=
  mkST7565 reset_pin (Py.zeros (LCDHEIGHT * LCDWIDTH))
           (match snd (unroll (reset_script reset_pin ++ power_up_script) fs) with
            | None => Some (clamp contrast)
            | Some _ => None
            end)
           false.

(** A command is one byte written with the data/command line low, a data
    write is a block written with the line high. *)
Definition command (c : Z) : list event := sent false [c] None.
Definition data (block : list Z) : list event := sent true block None.

(** Bytes [p*WIDTH, (p+1)*WIDTH) of the surface. *)
Definition page_bytes (buf : list Z) (p : nat) : list Z :=
  firstn (Z.to_nat LCDWIDTH) (skipn (p * Z.to_nat LCDWIDTH) buf).

(** What the panel has to receive for page [p]. *)
Definition page_transfer (buf : list Z) (p : nat) : list event :=
  command (Z.lor 0xB0 (nth p pagemap 0))
  ++ command (Z.lor 0x00 0)
  ++ command (Z.lor 0x10 0)
  ++ data (page_bytes buf p).

(** Number of bytes that went out as data, [dc] being the level of the
    data/command line before the log starts. *)
Fixpoint data_count (dc : bool) (tr : list event) : nat :=
  match tr with
  | [] => 0
  | SetValue DC v :: tr' => data_count v tr'
  | SpiWrite block None :: tr' =>
      ((if dc then length block else 0) + data_count dc tr')%nat
  | _ :: tr' => data_count dc tr'
  end.

(** The bus writes of a log, in order, each with the level of the
    data/command line and what the transport raised. *)
Fixpoint bus_writes (dc : bool) (tr : list event)
  : list (bool * list Z * option Py.exn) :=
  match tr with
  | [] => []
  | SetValue DC v :: tr' => bus_writes v tr'
  | SpiWrite block raised :: tr' => (dc, block, raised) :: bus_writes dc tr'
  | _ :: tr' => bus_writes dc tr'
  end.

(** The calls an application can make on a constructed driver. *)
Inductive call : Type :=
| CallReset
| CallWriteCmd (cmd : Z)
| CallShow
| GetInvert
| SetInvert (val : bool)
| GetContrast
| SetContrast (val : Z).

(** The world after a call; an exception is caught by the caller. *)
Definition perform (c : call) (w : world) : world :=
  match c with
  | CallReset => snd (reset w)
  | CallWriteCmd cmd => snd (write_cmd cmd w)
  | CallShow => snd (show w)
  | GetInvert => snd (invert w)
  | SetInvert val => snd (invert_setter val w)
  | GetContrast => snd (contrast w)
  | SetContrast val => snd (contrast_setter val w)
  end.

Definition perform_all (cs : list call) (w : world) : world :=
  fold_left (fun w' c => perform c w') cs w.

Definition milliseconds (n : positive) : Q := Z.pos n # 1000.

(** The log of a reset pulse. *)
Definition reset_pulse (has_reset : bool) : list event :=
  if has_reset
  then [SetValue RST false; Sleep 0.5; SetValue RST true; Sleep 0.5]
  else [].

(** The power-up sequence with its three delays. *)
Definition power_up_log (d1 d2 d3 : Q) : list event :=
  command 0xA3             (* bias select: 1/7 *)
  ++ command 0xA1          (* ADC reverse *)
  ++ command 0xC0          (* COM output normal *)
  ++ command 0x40          (* display start line 0 *)
  ++ command 0x2C          (* power control: converter *)
  ++ [Sleep d1]
  ++ command 0x2E          (* power control: converter, regulator *)
  ++ [Sleep d2]
  ++ command 0x2F          (* power control: converter, regulator, follower *)
  ++ [Sleep d3]
  ++ command 0x27          (* resistor ratio *)
  ++ command 0xAF          (* display ON *)
  ++ command 0xA4.         (* all points normal *)

(** Events that change the level of the reset pin, and sleeps that last
    the reset-settle duration or longer. *)
Definition reset_level_change (e : event) : bool :=
  match e with
  | SetValue RST _ => true
  | _ => false
  end.

Definition settle_sleep (e : event) : bool :=
  match e with
  | Sleep d => Qle_bool (milliseconds 500) d
  | _ => false
  end.

Definition bus_write (e : event) : bool :=
  match e with
  | SpiWrite _ _ => true
  | _ => false
  end.

Definition reset_pin_event (e : event) : bool :=
  match e with
  | SwitchToOutput RST _ => true
  | _ => reset_level_change e
  end.

Definition calm (e : event) : bool :=
  negb (reset_pin_event e) && negb (settle_sleep e).

Definition calm_action (a : action) : bool :=
  match a with
  | Drive RST _ => false
  | Configure RST _ => false
  | Pause d => negb (Qle_bool (milliseconds 500) d)
  | _ => true
  end.

(** The 32 bus writes of a [show()], in order: level of the data/command
    line and block. *)
Definition show_writes (buf : list Z) : list (bool * list Z) :=
  flat_map (fun page =>
              [(false, [Z.lor CMD_SET_PAGE page]);
               (false, [CMD_SET_COLUMN_LOWER]);
               (false, [CMD_SET_COLUMN_UPPER]);
               (true, Py.slice buf (Z.shiftl page 7) (Z.shiftl (page + 1) 7))])
           pagemap.

(** A driver constructed with a reset pin and contrast 0 on a transport
    that never fails. *)
Definition fresh : world := snd (__init__ true 0 1000000 (boot [])).

(** The same driver with something drawn past the last page. *)
Definition scribbled : world :=
  mkWorld (mkST7565 true (firstn 1024 (buffer (self fresh)) ++ repeat 255 (Z.to_nat 7168))
                    (Some 0) false)
          (trace fresh) (faults fresh).

(** ** Vocabulary of the further properties *)

(** Number of bus writes attempted in a log. *)
Definition write_attempts (tr : list event) : nat := length (filter bus_write tr).

(** The discipline of the bus: the data/command line is set right before
    the device is taken, at most one block is written while it is held,
    and pins and clock are left alone until it is released. *)
Inductive phase : Type := Idle | Armed | Entered | Written.

Definition phase_step (ph : phase) (e : event) : option phase :=
  match e, ph with
  | SetValue DC _, (Idle | Armed) => Some Armed
  | SpiEnter, Armed => Some Entered
  | SpiWrite _ _, Entered => Some Written
  | SpiExit, (Entered | Written) => Some Idle
  | (SwitchToOutput _ _ | NewSPIDevice _ | SetValue RST _ | Sleep _), (Idle | Armed) =>
      Some Idle
  | _, _ => None
  end.

Fixpoint scoped (ph : phase) (tr : list event) : option phase :=
  match tr with
  | [] => Some ph
  | e :: tr' =>
      match phase_step ph e with
      | Some ph' => scoped ph' tr'
      | None => None
      end
  end.

(** Scripts that drive the data/command line only as part of a transfer. *)
Definition tidy (a : action) : bool :=
  match a with
  | Drive DC _ => false
  | _ => true
  end.

(** A bus write is a single byte with the data/command line low, or a
    block of at most one page with the line high. *)
Definition well_shaped (dc : bool) (block : list Z) : bool :=
  if dc then (length block <=? Z.to_nat LCDWIDTH)%nat
  else match block with
       | [c] => Py.is_byte c
       | _ => false
       end.

Definition shaped_write (t : bool * list Z * option Py.exn) : bool :=
  well_shaped (fst (fst t)) (snd (fst t)).

Definition shaped_action (a : action) : bool :=
  match a with
  | Transfer dc block => well_shaped dc block
  | _ => true
  end.

(** Calls other than the two setters. *)
Definition is_reader (c : call) : bool :=
  match c with
  | SetInvert _ | SetContrast _ => false
  | _ => true
  end.

(** The two bus writes of the contrast setter. *)
Definition contrast_writes (val : Z) : list (bool * list Z) :=
  [(false, [CMD_SET_VOLUME_FIRST]);
   (false, [Z.lor CMD_SET_VOLUME_SECOND (Z.land (clamp val) 0x3F)])].

(** What a transport makes of one write: its head outcome, none when the
    outcomes are exhausted. *)
Definition next_outcome (fs : list (option Py.exn)) : option Py.exn :=
  match fs with
  | o :: _ => o
  | [] => None
  end.

Definition as_result (o : option Py.exn) : result unit :=
  match o with
  | None => Ok tt
  | Some e => Raise e
  end.

(** A driver whose buffer has been replaced by one of 300 bytes. *)
Definition short : world :=
  mkWorld (mkST7565 true (repeat 9 300) (Some 0) false) [] [].

(** A constructed driver on a transport whose second write raises. *)
Definition flaky : world := mkWorld (self fresh) [] [None; Some (Py.OSError 5)].


(** A log that keeps the discipline of the bus from start to end. *)
Definition well_scoped (tr : list event) : Prop := scoped Idle tr = Some Idle.

(** A log all of whose bus writes are well shaped. *)
Definition all_shaped (tr : list event) : Prop :=
  forall dc, forallb shaped_write (bus_writes dc tr) = true.

(** Events of the bus protocol proper: the data/command line and the
    device scope with its write. *)
Definition bus_only (e : event) : bool :=
  match e with
  | SetValue DC _ | SpiEnter | SpiWrite _ _ | SpiExit => true
  | _ => false
  end.

Definition transfer_only (a : action) : bool :=
  match a with
  | Transfer _ _ => true
  | _ => false
  end.

Definition not_reset (c : call) : bool :=
  match c with
  | CallReset => false
  | _ => true
  end.

(** ** Scripts: general facts *)

Lemma unroll_app (p q : list action) (fs : list (option Py.exn)) :
  unroll (p ++ q) fs =
  let '(evs1, fs1, r1) := unroll p fs in
  match r1 with
  | Some e => (evs1, fs1, Some e)
  | None => let '(evs2, fs2, r2) := unroll q fs1 in (evs1 ++ evs2, fs2, r2)
  end.
Proof.
  revert fs; induction p as [|a p IH]; intros fs.
  - simpl. destruct (unroll q fs) as [[evs2 fs2] r2]. reflexivity.
  - destruct a; cbn [app unroll].
    1-4: rewrite IH; destruct (unroll p fs) as [[evs1 fs1] [e|]];
         [reflexivity | destruct (unroll q fs1) as [[evs2 fs2] r2];
                        rewrite app_assoc; reflexivity].
    destruct fs as [|[e|] fs]; try reflexivity; cbn [tl];
      rewrite IH; destruct (unroll p _) as [[evs1 fs1] [e|]];
        try reflexivity;
        destruct (unroll q fs1) as [[evs2 fs2] r2]; reflexivity.
Qed.

Lemma healthy_tl (fs : list (option Py.exn)) : healthy fs -> healthy (tl fs).
Proof. intros H; destruct H; [constructor | assumption]. Qed.

Lemma healthy_skipn (n : nat) (fs : list (option Py.exn)) :
  healthy fs -> healthy (skipn n fs).
Proof.
  revert fs; induction n as [|n IH]; intros fs H; [exact H|].
  destruct H; [constructor | apply IH; assumption].
Qed.

Lemma unroll_healthy (p : list action) (fs : list (option Py.exn)) :
  healthy fs ->
  unroll p fs = (flat_map events_of p, skipn (transfers p) fs, None).
Proof.
  revert fs; induction p as [|a p IH]; intros fs H; [reflexivity|].
  destruct a; cbn [unroll flat_map];
    try (rewrite (IH fs H); reflexivity).
  destruct H as [|o fs Ho H].
  - cbn [tl]. rewrite (IH [] (Forall_nil _)). cbn [events_of].
    unfold transfers; cbn [filter length]. rewrite !skipn_nil. reflexivity.
  - subst o. cbn [tl]. rewrite (IH fs H). reflexivity.
Qed.

(** A script of transfers only, facing a transport whose [k]-th write
    raises: the first [k] transfers go through, the next one is attempted
    and nothing comes after it. *)
Lemma unroll_fault (ts : list (bool * list Z)) (k : nat) (e : Py.exn)
      (rest : list (option Py.exn)) :
  (k < length ts)%nat ->
  unroll (map transfer_of ts) (repeat None k ++ Some e :: rest) =
  (flat_map (fun t => sent (fst t) (snd t) None) (firstn k ts)
     ++ sent (fst (nth k ts (false, []))) (snd (nth k ts (false, []))) (Some e),
   rest, Some e).
Proof.
  revert k; induction ts as [|t ts IH]; intros k Hk; [simpl in Hk; lia|].
  destruct k as [|k].
  - reflexivity.
  - cbn [map transfer_of unroll repeat app tl firstn flat_map nth].
    rewrite IH by (simpl in Hk; lia).
    rewrite <- app_assoc. reflexivity.
Qed.

Lemma follows_ret (s : ST7565) : follows (ret tt) s [].
Proof. intros tr fs. cbn. rewrite app_nil_r. reflexivity. Qed.

Lemma follows_bind (m k : M unit) (s : ST7565) (p q : list action) :
  follows m s p -> follows k s q -> follows (m ;; k) s (p ++ q).
Proof.
  intros Hm Hk tr fs. unfold bind. rewrite Hm, unroll_app.
  destruct (unroll p fs) as [[evs1 fs1] [e|]]; cbn [settle]; [reflexivity|].
  rewrite Hk. destruct (unroll q fs1) as [[evs2 fs2] r2]; cbn [settle].
  rewrite app_assoc. reflexivity.
Qed.

Lemma follows_cons (m k : M unit) (s : ST7565) (a : action) (q : list action) :
  follows m s [a] -> follows k s q -> follows (m ;; k) s (a :: q).
Proof. intros Hm Hk. exact (follows_bind m k s [a] q Hm Hk). Qed.

Lemma follows_log (s : ST7565) (e : event) (a : action) :
  (forall dc data, a <> Transfer dc data) -> events_of a = [e] ->
  follows (log e) s [a].
Proof.
  intros Hq He tr fs.
  destruct a; cbn in He |- *; try (injection He as <-; reflexivity).
  exfalso; exact (Hq _ _ eq_refl).
Qed.

Lemma runs_then_nil (k : M unit) (s : ST7565) : runs_then k s [] k.
Proof. intros tr fs. cbn. rewrite app_nil_r. reflexivity. Qed.

Lemma runs_then_step (m m' k : M unit) (s : ST7565) (p q : list action) :
  follows m s p -> runs_then m' s q k -> runs_then (m ;; m') s (p ++ q) k.
Proof.
  intros Hm Hm' tr fs. unfold bind. rewrite Hm, unroll_app.
  destruct (unroll p fs) as [[evs1 fs1] [e|]]; cbn [settle]; [reflexivity|].
  rewrite Hm'. destruct (unroll q fs1) as [[evs2 fs2] [e|]];
    rewrite app_assoc; reflexivity.
Qed.

Lemma follows_ret_bind {A} (a : A) (k : A -> M unit) (s : ST7565) (p : list action) :
  follows (k a) s p -> follows (x <- ret a ;; k x) s p.
Proof. intros H tr fs. exact (H tr fs). Qed.

Lemma follows_get_self (k : ST7565 -> M unit) (s : ST7565) (p : list action) :
  follows (k s) s p -> follows (s0 <- get_self ;; k s0) s p.
Proof. intros H tr fs. exact (H tr fs). Qed.

Lemma follows_for_each {A} (l : list A) (body : A -> M unit) (s : ST7565)
      (f : A -> list action) :
  (forall x, In x l -> follows (body x) s (f x)) ->
  follows (for_each l body) s (flat_map f l).
Proof.
  induction l as [|x l IH]; intros H.
  - apply follows_ret.
  - cbn [for_each flat_map]. apply follows_bind.
    + apply H. left. reflexivity.
    + apply IH. intros y Hy. apply H. right. exact Hy.
Qed.

(** ** The methods follow their scripts *)

Lemma follows_write_cmd (s : ST7565) (cmd : Z) :
  Py.is_byte cmd = true -> follows (write_cmd cmd) s [Transfer false [cmd]].
Proof.
  intros Hb tr fs.
  unfold write_cmd, bind, log, with_spi, bytearray, spi_write.
  cbn [forallb self trace faults]. rewrite Hb. cbn [andb ret self trace faults].
  destruct fs as [|[e|] fs]; cbn; rewrite <- !app_assoc; reflexivity.
Qed.

Lemma follows_write_data (s : ST7565) (f : ST7565 -> list Z) :
  follows (log (SetValue DC true) ;; with_spi (s0 <- get_self ;; spi_write (f s0)))
          s [Transfer true (f s)].
Proof.
  intros tr fs.
  unfold bind, log, with_spi, get_self, spi_write. cbn [self trace faults].
  destruct fs as [|[e|] fs]; cbn; rewrite <- !app_assoc; reflexivity.
Qed.

Lemma follows_reset (s : ST7565) : follows reset s (reset_script (_reset_pin s)).
Proof.
  intros tr fs. unfold reset, reset_script, bind, get_self, log.
  cbn [self]. destruct (_reset_pin s); cbn.
  - rewrite <- !app_assoc. reflexivity.
  - rewrite app_nil_r. reflexivity.
Qed.

Lemma getitem_pagemap (page : Z) : In page pagemap -> getitem pagemap page = ret page.
Proof.
  intros H. repeat (destruct H as [<-|H]; [reflexivity|]). destruct H.
Qed.

Lemma page_command_is_byte (page : Z) :
  In page pagemap -> Py.is_byte (Z.lor CMD_SET_PAGE page) = true.
Proof.
  intros H. repeat (destruct H as [<-|H]; [reflexivity|]). destruct H.
Qed.

Lemma follows_show_page (s : ST7565) (page : Z) :
  In page pagemap -> follows (show_page page) s (page_script (buffer s) page).
Proof.
  intros H. unfold show_page. rewrite (getitem_pagemap page H).
  apply follows_ret_bind. unfold page_script.
  apply follows_cons; [apply follows_write_cmd, page_command_is_byte, H|].
  apply follows_cons; [apply (follows_write_cmd s CMD_SET_COLUMN_LOWER); reflexivity|].
  apply follows_cons; [apply (follows_write_cmd s CMD_SET_COLUMN_UPPER); reflexivity|].
  exact (follows_write_data s
           (fun s0 => Py.slice (buffer s0) (Z.shiftl page 7) (Z.shiftl (page + 1) 7))).
Qed.

Lemma follows_show (s : ST7565) : follows show s (show_script (buffer s)).
Proof.
  unfold show, show_script. apply follows_for_each.
  intros page H. apply follows_show_page, H.
Qed.


Lemma volume_is_byte (c : Z) :
  Py.is_byte (Z.lor CMD_SET_VOLUME_SECOND (Z.land c 0x3F)) = true.
Proof.
  unfold CMD_SET_VOLUME_SECOND. rewrite Z.lor_0_l.
  change 0x3F with (Z.ones 6). rewrite Z.land_ones by lia.
  change (2 ^ 6) with 64.
  pose proof (Z.mod_pos_bound c 64 eq_refl) as Hm.
  unfold Py.is_byte. apply andb_true_intro. split.
  - apply Z.leb_le. lia.
  - apply Z.ltb_lt. lia.
Qed.

Lemma contrast_setter_runs (val : Z) (s : ST7565) (tr : list event)
      (fs : list (option Py.exn)) :
  contrast_setter val (mkWorld s tr fs) =
  settle (with_contrast s (Some (clamp val))) tr (unroll (contrast_script val) fs).
Proof.
  unfold contrast_setter.
  change ((set__contrast (Some (Z.max 0 (Z.min val 0x7F))) ;;
           write_cmd CMD_SET_VOLUME_FIRST ;;
           s0 <- get_self ;;
           match _contrast s0 with
           | Some c => write_cmd (Z.lor CMD_SET_VOLUME_SECOND (Z.land c 0x3F))
           | None => raise Py.ValueError
           end) (mkWorld s tr fs))
    with ((write_cmd CMD_SET_VOLUME_FIRST ;;
           s0 <- get_self ;;
           match _contrast s0 with
           | Some c => write_cmd (Z.lor CMD_SET_VOLUME_SECOND (Z.land c 0x3F))
           | None => raise Py.ValueError
           end) (mkWorld (with_contrast s (Some (clamp val))) tr fs)).
  revert tr fs.
  change (follows (write_cmd CMD_SET_VOLUME_FIRST ;;
                   s0 <- get_self ;;
                   match _contrast s0 with
                   | Some c => write_cmd (Z.lor CMD_SET_VOLUME_SECOND (Z.land c 0x3F))
                   | None => raise Py.ValueError
                   end)
                  (with_contrast s (Some (clamp val))) (contrast_script val)).
  apply follows_cons; [apply follows_write_cmd; reflexivity|].
  apply follows_get_self. cbn [with_contrast _contrast].
  apply follows_write_cmd, volume_is_byte.
Qed.

Lemma invert_setter_runs (val : bool) (s : ST7565) (tr : list event)
      (fs : list (option Py.exn)) :
  invert_setter val (mkWorld s tr fs) =
  settle (with_invert s val) tr (unroll (invert_script val) fs).
Proof.
  unfold invert_setter.
  change ((set__invert val ;;
           (if val then write_cmd CMD_SET_DISP_REVERSE
            else write_cmd CMD_SET_DISP_NORMAL)) (mkWorld s tr fs))
    with ((if val then write_cmd CMD_SET_DISP_REVERSE
           else write_cmd CMD_SET_DISP_NORMAL) (mkWorld (with_invert s val) tr fs)).
  destruct val; apply follows_write_cmd; reflexivity.
Qed.

Lemma runs_then_cons (m m' k : M unit) (s : ST7565) (a : action) (q : list action) :
  follows m s [a] -> runs_then m' s q k -> runs_then (m ;; m') s (a :: q) k.
Proof. intros Hm Hm'. exact (runs_then_step m m' k s [a] q Hm Hm'). Qed.

Lemma follows_sleep (s : ST7565) (d : Q) : follows (log (Sleep d)) s [Pause d].
Proof. apply follows_log; [discriminate | reflexivity]. Qed.

Lemma init_body_runs (reset_pin : bool) (contrast : Z) (s : ST7565) :
  _reset_pin s = reset_pin ->
  runs_then
    (reset ;;
     write_cmd CMD_SET_BIAS_7 ;;
     write_cmd CMD_SET_ADC_REVERSE ;;
     write_cmd CMD_SET_COM_NORMAL ;;
     write_cmd CMD_SET_DISP_START_LINE ;;
     write_cmd (Z.lor CMD_SET_POWER_CONTROL 0x4) ;;
     log (Sleep 0.05) ;;
     write_cmd (Z.lor CMD_SET_POWER_CONTROL 0x6) ;;
     log (Sleep 0.05) ;;
     write_cmd (Z.lor CMD_SET_POWER_CONTROL 0x7) ;;
     log (Sleep 0.01) ;;
     write_cmd (Z.lor CMD_SET_RESISTOR_RATIO 0x7) ;;
     write_cmd CMD_DISPLAY_ON ;;
     write_cmd CMD_SET_ALLPTS_NORMAL ;;
     contrast_setter contrast)
    s (reset_script reset_pin ++ power_up_script) (contrast_setter contrast).
Proof.
  intros <-.
  apply runs_then_step; [apply follows_reset|].
  unfold power_up_script.
  repeat (apply runs_then_cons;
          [first [apply follows_sleep | apply follows_write_cmd; reflexivity]|]).
  apply runs_then_nil.
Qed.

Lemma init_runs (reset_pin : bool) (contrast baudrate : Z) (s0 : ST7565)
      (tr : list event) (fs : list (option Py.exn)) :
  __init__ reset_pin contrast baudrate (mkWorld s0 tr fs) =
  settle (init_object reset_pin contrast fs) tr
         (unroll (init_script reset_pin contrast baudrate) fs).
Proof.
  pose proof (init_body_runs reset_pin contrast
                (mkST7565 reset_pin (Py.zeros (LCDHEIGHT * LCDWIDTH)) None false)
                eq_refl) as Hbody.
  unfold init_script, init_object.
  assert (Hpre : forall q,
             unroll ([Configure DC false; Attach baudrate]
                       ++ (if reset_pin then [Configure RST true] else []) ++ q) fs =
             let '(evs, fs', r) := unroll q fs in
             ([SwitchToOutput DC false; NewSPIDevice baudrate]
                ++ (if reset_pin then [SwitchToOutput RST true] else []) ++ evs, fs', r)).
  { intros q. destruct reset_pin; cbn; destruct (unroll q fs) as [[evs fs'] r];
      reflexivity. }
  rewrite Hpre.
  rewrite (app_assoc (reset_script reset_pin) power_up_script (contrast_script contrast)).
  rewrite (unroll_app (reset_script reset_pin ++ power_up_script)
                      (contrast_script contrast)).
  transitivity
    (match unroll (reset_script reset_pin ++ power_up_script) fs with
     | (evs, fs', Some e) =>
         (Raise e,
          mkWorld (mkST7565 reset_pin (Py.zeros (LCDHEIGHT * LCDWIDTH)) None false)
                  ((tr ++ [SwitchToOutput DC false; NewSPIDevice baudrate]
                       ++ (if reset_pin then [SwitchToOutput RST true] else []))
                     ++ evs) fs')
     | (evs, fs', None) =>
         contrast_setter contrast
           (mkWorld (mkST7565 reset_pin (Py.zeros (LCDHEIGHT * LCDWIDTH)) None false)
                    ((tr ++ [SwitchToOutput DC false; NewSPIDevice baudrate]
                         ++ (if reset_pin then [SwitchToOutput RST true] else []))
                       ++ evs) fs')
     end).
  - rewrite <- Hbody. unfold __init__.
    destruct reset_pin; cbn [bind log set__reset_pin set_buffer set__contrast
                               set__invert get_self put_self ret self trace faults
                               _reset_pin buffer _contrast _invert];
      rewrite <- ?app_assoc; reflexivity.
  - destruct (unroll (reset_script reset_pin ++ power_up_script) fs)
      as [[evs fs'] [e|]]; cbn [snd settle].
    + rewrite <- !app_assoc. reflexivity.
    + rewrite contrast_setter_runs.
      destruct (unroll (contrast_script contrast) fs') as [[evs2 fs2] r2].
      cbn [settle with_contrast _reset_pin buffer _invert].
      rewrite <- !app_assoc. reflexivity.
Qed.

(** ** Reading a log *)

Lemma page_bytes_length (buf : list Z) (p : nat) :
  (p < 8)%nat -> (1024 <= length buf)%nat -> length (page_bytes buf p) = 128%nat.
Proof.
  intros Hp Hlen. unfold page_bytes.
  change (Z.to_nat LCDWIDTH) with 128%nat.
  rewrite length_firstn, length_skipn. lia.
Qed.

Lemma slice_page (buf : list Z) (page : Z) :
  In page pagemap -> (1024 <= length buf)%nat ->
  Py.slice buf (Z.shiftl page 7) (Z.shiftl (page + 1) 7) =
  page_bytes buf (Z.to_nat page).
Proof.
  intros Hin Hlen.
  assert (Hpage : 0 <= page < 8).
  { repeat (destruct Hin as [<-|Hin]; [lia|]). destruct Hin. }
  unfold Py.slice, Py.slice_index, page_bytes.
  rewrite !Z.shiftl_mul_pow2 by lia. change (2 ^ 7) with 128.
  change (Z.to_nat LCDWIDTH) with 128%nat.
  destruct (Z.ltb_spec (page * 128) 0); [lia|].
  destruct (Z.ltb_spec ((page + 1) * 128) 0); [lia|].
  rewrite !Z.min_l by lia.
  f_equal; [|f_equal]; lia.
Qed.

Lemma show_script_pages (buf : list Z) :
  (1024 <= length buf)%nat ->
  flat_map events_of (show_script buf) = flat_map (page_transfer buf) (seq 0 8).
Proof.
  intros Hlen. unfold show_script, pagemap.
  cbn [flat_map page_script app events_of seq].
  rewrite !(fun page H => slice_page buf page H Hlen) by (cbn; tauto).
  reflexivity.
Qed.

Lemma transfers_show_script (buf : list Z) : transfers (show_script buf) = 32%nat.
Proof. reflexivity. Qed.

(** ** The claims *)

(** C1: on a transport that does not fail, [show()] sends for each page
    p = 0..7, in ascending order, the set-page command 0xB0 | pagemap[p],
    the column commands 0x00 | 0 and 0x10 | 0, and then one data write of
    buffer bytes [p*128, (p+1)*128): 128 bytes per page, 1024 data bytes
    per call. *)
Theorem show_sends_every_page (w : world) :
  healthy (faults w) ->
  (Z.to_nat (LCDWIDTH * LCDHEIGHT / 8) <= length (buffer (self w)))%nat ->
  show w =
  (Ok tt,
   mkWorld (self w)
           (trace w ++ flat_map (page_transfer (buffer (self w))) (seq 0 8))
           (skipn 32 (faults w)))
  /\ (forall p, (p < 8)%nat ->
                length (page_bytes (buffer (self w)) p) = Z.to_nat LCDWIDTH)
  /\ (forall dc,
         data_count dc (flat_map (page_transfer (buffer (self w))) (seq 0 8)) =
         Z.to_nat (LCDWIDTH * LCDHEIGHT / 8)).
Proof.
  change (Z.to_nat (LCDWIDTH * LCDHEIGHT / 8)) with 1024%nat.
  change (Z.to_nat LCDWIDTH) with 128%nat.
  destruct w as [s tr fs]; cbn [self trace faults]. intros Hfs Hlen.
  split; [|split].
  - rewrite follows_show, (unroll_healthy _ _ Hfs). cbn [settle].
    rewrite (show_script_pages _ Hlen), transfers_show_script. reflexivity.
  - intros p Hp. apply page_bytes_length; assumption.
  - intros dc.
    cbn [flat_map seq page_transfer command data sent app data_count length].
    rewrite !page_bytes_length by (assumption || lia).
    reflexivity.
Qed.

(** *** C2: the surface buffer *)

Lemma settle_self (s : ST7565) (tr : list event) (o : outcome) :
  self (snd (settle s tr o)) = s.
Proof. destruct o as [[evs fs] r]. reflexivity. Qed.

Lemma write_cmd_self (cmd : Z) (w : world) : self (snd (write_cmd cmd w)) = self w.
Proof.
  destruct w as [s tr fs].
  unfold write_cmd, bind, log, with_spi, bytearray, spi_write.
  cbn [forallb self trace faults]. destruct (Py.is_byte cmd); cbn.
  - destruct fs as [|[e|] fs]; reflexivity.
  - reflexivity.
Qed.

Lemma perform_buffer (c : call) (w : world) :
  buffer (self (perform c w)) = buffer (self w).
Proof.
  destruct c; unfold perform.
  - destruct w as [s tr fs]. rewrite follows_reset, settle_self. reflexivity.
  - rewrite write_cmd_self. reflexivity.
  - destruct w as [s tr fs]. rewrite follows_show, settle_self. reflexivity.
  - reflexivity.
  - destruct w as [s tr fs]. rewrite invert_setter_runs, settle_self. reflexivity.
  - reflexivity.
  - destruct w as [s tr fs]. rewrite contrast_setter_runs, settle_self. reflexivity.
Qed.

Lemma perform_all_buffer (cs : list call) (w : world) :
  buffer (self (perform_all cs w)) = buffer (self w).
Proof.
  revert w; induction cs as [|c cs IH]; intros w; [reflexivity|].
  cbn [perform_all fold_left]. fold (perform_all cs (perform c w)).
  rewrite IH. apply perform_buffer.
Qed.

Lemma init_buffer (reset_pin : bool) (contrast baudrate : Z) (w : world) :
  buffer (self (snd (__init__ reset_pin contrast baudrate w))) =
  Py.zeros (LCDHEIGHT * LCDWIDTH).
Proof.
  destruct w as [s tr fs]. rewrite init_runs, settle_self. reflexivity.
Qed.

Lemma zeros_length (n : Z) : length (Py.zeros n) = Z.to_nat n.
Proof. unfold Py.zeros. apply repeat_length. Qed.

(** C2, as the code has it: the buffer allocated by the constructor is
    LCDHEIGHT * LCDWIDTH = 8192 bytes long, eight times the
    WIDTH * HEIGHT / 8 = 1024 bytes of the 8 pages of 128 bytes, and no
    sequence of driver calls changes that length, whatever the transport
    does. *)
Theorem buffer_length_is_fixed (reset_pin : bool) (contrast baudrate : Z)
        (fs : list (option Py.exn)) (cs : list call) :
  length (buffer (self (perform_all cs
                          (snd (__init__ reset_pin contrast baudrate (boot fs))))))
  = Z.to_nat (LCDHEIGHT * LCDWIDTH)
  /\ Z.to_nat (LCDHEIGHT * LCDWIDTH) = (8 * Z.to_nat (LCDWIDTH * LCDHEIGHT / 8))%nat
  /\ Z.to_nat (LCDWIDTH * LCDHEIGHT / 8)
     = (Z.to_nat (LCDHEIGHT / 8) * Z.to_nat LCDWIDTH)%nat.
Proof.
  split; [|split].
  - rewrite perform_all_buffer, init_buffer. apply zeros_length.
  - apply Nat.eqb_eq. vm_compute. reflexivity.
  - apply Nat.eqb_eq. vm_compute. reflexivity.
Qed.

(** C2 as stated fails: a freshly constructed driver holds 8192 bytes,
    not WIDTH * HEIGHT / 8 = 1024. *)
Lemma buffer_length_is_not_1024 :
  length (buffer (self (snd (__init__ false 0 1000000 (boot [])))))
  <> Z.to_nat (LCDWIDTH * LCDHEIGHT / 8).
Proof.
  rewrite init_buffer, zeros_length.
  apply Nat.eqb_neq. vm_compute. reflexivity.
Qed.

(** *** C3: the order of the power-up commands *)

Lemma transfers_init_script (reset_pin : bool) (contrast baudrate : Z) :
  transfers (init_script reset_pin contrast baudrate) = 12%nat.
Proof. destruct reset_pin; reflexivity. Qed.

(** C3: on a transport that does not fail, the constructor logs, after
    the pin set-up and the reset pulse, exactly: bias select, ADC reverse,
    COM normal, start line 0, power control stage 1, a delay of at least
    50 ms, stage 2, a delay of at least 50 ms, stage 3, a delay of at
    least 10 ms, resistor ratio, Display ON, all-points-normal, and then
    the two contrast commands. *)
Theorem init_command_order (reset_pin : bool) (contrast baudrate : Z)
        (s0 : ST7565) (tr : list event) (fs : list (option Py.exn)) :
  healthy fs ->
  exists d1 d2 d3 : Q,
    __init__ reset_pin contrast baudrate (mkWorld s0 tr fs) =
    (Ok tt,
     mkWorld (mkST7565 reset_pin (Py.zeros (LCDHEIGHT * LCDWIDTH))
                       (Some (clamp contrast)) false)
             (tr ++ [SwitchToOutput DC false; NewSPIDevice baudrate]
                 ++ (if reset_pin then [SwitchToOutput RST true] else [])
                 ++ reset_pulse reset_pin
                 ++ power_up_log d1 d2 d3
                 ++ command 0x81
                 ++ command (Z.lor 0x00 (Z.land (clamp contrast) 0x3F)))
             (skipn 12 fs))
    /\ (milliseconds 50 <= d1)%Q
    /\ (milliseconds 50 <= d2)%Q
    /\ (milliseconds 10 <= d3)%Q.
Proof.
  intros Hfs. exists 0.05%Q, 0.05%Q, 0.01%Q.
  split; [|repeat split; apply Qle_bool_imp_le; reflexivity].
  rewrite init_runs. unfold init_object.
  rewrite !(unroll_healthy _ _ Hfs), transfers_init_script.
  cbn [snd settle]. destruct reset_pin; reflexivity.
Qed.

(** *** C4: the contrast setter *)

(** C4: for every integer [val], on a transport that does not fail, the
    setter caches clamp(val, 0, 127) and sends exactly the two commands
    0x81 and 0x00 | (clamped & 0x3F), whatever was cached before. *)
Theorem contrast_setter_clamps_and_sends (val : Z) (w : world) :
  healthy (faults w) ->
  contrast_setter val w =
  (Ok tt,
   mkWorld (with_contrast (self w) (Some (clamp val)))
           (trace w ++ command 0x81
                    ++ command (Z.lor 0x00 (Z.land (clamp val) 0x3F)))
           (skipn 2 (faults w)))
  /\ contrast (snd (contrast_setter val w)) =
     (Ok (Some (if val <? 0 then 0 else if 127 <? val then 127 else val)),
      snd (contrast_setter val w)).
Proof.
  destruct w as [s tr fs]; cbn [self trace faults]. intros Hfs.
  rewrite contrast_setter_runs, (unroll_healthy _ _ Hfs). cbn [settle snd].
  split; [reflexivity|].
  unfold contrast, bind, get_self, ret, with_contrast, clamp.
  cbn [self _contrast]. do 3 f_equal.
  destruct (Z.ltb_spec val 0); destruct (Z.ltb_spec 127 val); lia.
Qed.

(** *** C5: the cache and a failing write *)

(** C5, as the code has it: the setter writes the cache first, so after
    the call the cached contrast is clamp(val, 0, 127) whether or not a
    bus write raised, and the other fields of the object are as before. *)
Theorem contrast_cache_written_first (val : Z) (w : world) :
  self (snd (contrast_setter val w)) = with_contrast (self w) (Some (clamp val))
  /\ _contrast (self (snd (contrast_setter val w))) = Some (clamp val).
Proof.
  destruct w as [s tr fs].
  rewrite contrast_setter_runs, settle_self. split; reflexivity.
Qed.

(** C5 as stated fails: with 0 cached and a transport whose next write
    raises, setting the contrast to 100 raises and leaves 100 cached. *)
Lemma contrast_cache_changes_on_error :
  ~ (forall (val : Z) (w : world) (e : Py.exn),
        fst (contrast_setter val w) = Raise e ->
        _contrast (self (snd (contrast_setter val w))) = _contrast (self w)).
Proof.
  intros H.
  specialize (H 100 (mkWorld (mkST7565 false [] (Some 0) false) []
                             [Some (Py.OSError 5)])
                (Py.OSError 5) eq_refl).
  vm_compute in H. discriminate H.
Qed.

(** *** C6: the reset pulse *)

Lemma unroll_calm (p : list action) (fs : list (option Py.exn)) :
  forallb calm_action p = true ->
  forallb calm (fst (fst (unroll p fs))) = true.
Proof.
  revert fs; induction p as [|a p IH]; intros fs H; [reflexivity|].
  cbn [forallb] in H. apply andb_prop in H. destruct H as [Ha Hp].
  destruct a as [q v|b|q v|d|dc blk]; cbn [unroll].
  1-4: specialize (IH fs Hp); destruct (unroll p fs) as [[evs fs'] r];
       cbn [fst events_of app forallb] in *; rewrite IH, andb_true_r.
  - destruct q; [reflexivity | discriminate Ha].
  - reflexivity.
  - destruct q; [reflexivity | discriminate Ha].
  - unfold calm.
    cbn [reset_pin_event reset_level_change settle_sleep negb andb]. exact Ha.
  - destruct fs as [|[e|] fs]; cbn [tl].
    + specialize (IH [] Hp). destruct (unroll p []) as [[evs fs'] r].
      cbn [fst] in *. unfold sent. cbn [app forallb]. rewrite IH. reflexivity.
    + reflexivity.
    + specialize (IH fs Hp). destruct (unroll p fs) as [[evs fs'] r].
      cbn [fst] in *. unfold sent. cbn [app forallb]. rewrite IH. reflexivity.
Qed.

(** C6: [reset()] logs nothing at all without a reset pin; with one it
    logs exactly: level low, a sleep of 0.5 s, level high, a sleep of
    0.5 s.  In the constructor, whatever the transport does, that pulse
    comes after the pin set-up and before everything else, and everything
    else does not touch the reset pin and holds no sleep of 500 ms or more,
    while no bus write comes before the pulse. *)
Theorem reset_pulse_only_with_pin (reset_pin : bool) (contrast baudrate : Z)
        (w : world) :
  reset w =
    (Ok tt, mkWorld (self w) (trace w ++ reset_pulse (_reset_pin (self w))) (faults w))
  /\ reset_pulse false = []
  /\ (exists d, reset_pulse true =
                [SetValue RST false; Sleep d; SetValue RST true; Sleep d]
                /\ (milliseconds 500 <= d)%Q)
  /\ (exists rest,
         trace (snd (__init__ reset_pin contrast baudrate w)) =
         trace w ++ ([SwitchToOutput DC false; NewSPIDevice baudrate]
                       ++ (if reset_pin then [SwitchToOutput RST true] else []))
                 ++ reset_pulse reset_pin ++ rest
         /\ forallb calm rest = true
         /\ forallb (fun e => negb (bus_write e))
                    ([SwitchToOutput DC false; NewSPIDevice baudrate]
                       ++ (if reset_pin then [SwitchToOutput RST true] else [])
                       ++ reset_pulse reset_pin) = true).
Proof.
  destruct w as [s tr fs]; cbn [self trace faults].
  split; [|split; [|split]].
  - rewrite follows_reset. cbn. destruct (_reset_pin s); reflexivity.
  - reflexivity.
  - exists 0.5%Q. split; [reflexivity|].
    apply Qle_bool_imp_le. reflexivity.
  - exists (fst (fst (unroll (power_up_script ++ contrast_script contrast) fs))).
    split; [|split].
    + rewrite init_runs. unfold init_script.
      pose proof (unroll_app
                    ([Configure DC false; Attach baudrate]
                       ++ (if reset_pin then [Configure RST true] else [])
                       ++ reset_script reset_pin)
                    (power_up_script ++ contrast_script contrast) fs) as Happ.
      rewrite <- !app_assoc in Happ. cbn [app] in Happ |- *. rewrite Happ.
      destruct reset_pin; cbn [app unroll events_of reset_script];
        destruct (unroll (power_up_script ++ contrast_script contrast) fs)
          as [[evs fs'] r]; reflexivity.
    + apply unroll_calm. reflexivity.
    + destruct reset_pin; reflexivity.
Qed.

(** *** C7: a bus write that raises during [show()] *)

Lemma show_script_writes (buf : list Z) :
  show_script buf = map transfer_of (show_writes buf).
Proof. reflexivity. Qed.

Lemma show_writes_length (buf : list Z) : length (show_writes buf) = 32%nat.
Proof. reflexivity. Qed.

Lemma bus_writes_sent (ts : list (bool * list Z)) (dc dc' : bool) (blk : list Z)
      (o : option Py.exn) :
  bus_writes dc (flat_map (fun t => sent (fst t) (snd t) None) ts ++ sent dc' blk o) =
  map (fun t => (fst t, snd t, None)) ts ++ [(dc', blk, o)].
Proof.
  revert dc; induction ts as [|t ts IH]; intros dc; [reflexivity|].
  cbn [flat_map sent app bus_writes map]. rewrite (IH (fst t)). reflexivity.
Qed.

(** C7: when the [k]-th bus write of a [show()] raises [e] (k < 32), the
    writes before it have gone through, that write is attempted once, the
    device is released, nothing else is logged (no command or data of a
    later page), the rest of the transport's outcomes is untouched (no
    retry), and [e] itself is what [show()] raises. *)
Theorem show_aborts_on_bus_error (w : world) (k : nat) (e : Py.exn)
        (rest : list (option Py.exn)) :
  (k < 32)%nat ->
  faults w = repeat None k ++ Some e :: rest ->
  exists evs dc blk,
    nth_error (show_writes (buffer (self w))) k = Some (dc, blk)
    /\ show w = (Raise e, mkWorld (self w) (trace w ++ evs) rest)
    /\ evs = flat_map (fun t => sent (fst t) (snd t) None)
                      (firstn k (show_writes (buffer (self w))))
             ++ [SetValue DC dc; SpiEnter; SpiWrite blk (Some e); SpiExit]
    /\ (forall dc0,
           bus_writes dc0 evs =
           map (fun t => (fst t, snd t, None))
               (firstn k (show_writes (buffer (self w))))
           ++ [(dc, blk, Some e)]).
Proof.
  destruct w as [s tr fs]; cbn [self trace faults]. intros Hk ->.
  pose proof (show_writes_length (buffer s)) as Hlen.
  destruct (nth_error (show_writes (buffer s)) k) as [[dc blk]|] eqn:Hnth;
    [|apply nth_error_None in Hnth; lia].
  exists (flat_map (fun t => sent (fst t) (snd t) None)
                   (firstn k (show_writes (buffer s)))
          ++ sent dc blk (Some e)), dc, blk.
  split; [reflexivity|]. split; [|split].
  - rewrite follows_show, show_script_writes, unroll_fault by lia.
    rewrite (nth_error_nth _ _ (false, []) Hnth). reflexivity.
  - reflexivity.
  - intros dc0. apply bus_writes_sent.
Qed.

(** *** C8: invert *)

(** C8: on a transport that does not fail, after [invert = flag] the
    getter returns [flag] and the log ends with the command 0xA7 (display
    reverse) when [flag] is true, 0xA6 (display normal) when it is false. *)
Theorem invert_round_trip (flag : bool) (w : world) :
  healthy (faults w) ->
  invert_setter flag w =
  (Ok tt,
   mkWorld (with_invert (self w) flag)
           (trace w ++ command (if flag then 0xA7 else 0xA6))
           (skipn 1 (faults w)))
  /\ invert (snd (invert_setter flag w)) = (Ok flag, snd (invert_setter flag w)).
Proof.
  destruct w as [s tr fs]; cbn [self trace faults]. intros Hfs.
  rewrite invert_setter_runs, (unroll_healthy _ _ Hfs). cbn [settle snd].
  split; [|reflexivity]. destruct flag; reflexivity.
Qed.

(** *** C9: the getters *)

(** C9: the two getters return the cached values and leave the whole
    world as it was: the object, the log (no bus write, no pin change) and
    the transport. *)
Theorem getters_are_pure (w : world) :
  invert w = (Ok (_invert (self w)), w)
  /\ contrast w = (Ok (_contrast (self w)), w).
Proof. split; reflexivity. Qed.

(** *** C10: bytes from index 1024 on *)

Lemma slice_nonneg (buf : list Z) (lo hi : Z) :
  0 <= lo <= hi ->
  Py.slice buf lo hi = firstn (Z.to_nat (hi - lo)) (skipn (Z.to_nat lo) buf).
Proof.
  intros H. unfold Py.slice, Py.slice_index.
  destruct (Z.ltb_spec lo 0); [lia|]. destruct (Z.ltb_spec hi 0); [lia|].
  destruct (Z_le_gt_dec hi (Z.of_nat (length buf))) as [Hhi|Hhi].
  - rewrite !Z.min_l by lia. reflexivity.
  - rewrite (Z.min_r hi) by lia.
    destruct (Z_le_gt_dec lo (Z.of_nat (length buf))) as [Hlo|Hlo].
    + rewrite Z.min_l by lia.
      rewrite !firstn_all2; [reflexivity | rewrite length_skipn; lia
                             | rewrite length_skipn; lia].
    + rewrite Z.min_r by lia.
      rewrite !skipn_all2 by lia. rewrite !firstn_nil. reflexivity.
Qed.

Lemma slice_prefix (buf : list Z) (n : nat) (lo hi : Z) :
  0 <= lo <= hi -> hi <= Z.of_nat n ->
  Py.slice buf lo hi = Py.slice (firstn n buf) lo hi.
Proof.
  intros H Hn. rewrite !slice_nonneg by assumption.
  rewrite skipn_firstn_comm, firstn_firstn. f_equal. lia.
Qed.

Lemma flat_map_agree {A B} (f g : A -> list B) (l : list A) :
  (forall x, In x l -> f x = g x) -> flat_map f l = flat_map g l.
Proof.
  induction l as [|x l IH]; intros H; [reflexivity|].
  cbn [flat_map]. rewrite (H x (or_introl eq_refl)), IH; [reflexivity|].
  intros y Hy. apply H. right. exact Hy.
Qed.

Lemma show_writes_prefix (buf : list Z) :
  show_writes buf = show_writes (firstn 1024 buf).
Proof.
  unfold show_writes. apply flat_map_agree. intros page Hin.
  assert (Hpage : 0 <= page < 8).
  { repeat (destruct Hin as [<-|Hin]; [lia|]). destruct Hin. }
  rewrite (slice_prefix buf 1024 (Z.shiftl page 7) (Z.shiftl (page + 1) 7));
    [reflexivity | rewrite !Z.shiftl_mul_pow2; lia
     | rewrite !Z.shiftl_mul_pow2; lia].
Qed.

(** C10: two worlds whose buffers agree on indices [0, 1024) and whose
    transports are alike get from [show()] the same result and the same
    new log entries, hence the same command and data bytes on the bus,
    and leave the same transport behind. *)
Theorem show_ignores_bytes_past_1024 (w1 w2 : world) :
  firstn (Z.to_nat (LCDWIDTH * LCDHEIGHT / 8)) (buffer (self w1)) =
  firstn (Z.to_nat (LCDWIDTH * LCDHEIGHT / 8)) (buffer (self w2)) ->
  faults w1 = faults w2 ->
  exists r evs fs',
    show w1 = (r, mkWorld (self w1) (trace w1 ++ evs) fs')
    /\ show w2 = (r, mkWorld (self w2) (trace w2 ++ evs) fs').
Proof.
  change (Z.to_nat (LCDWIDTH * LCDHEIGHT / 8)) with 1024%nat.
  destruct w1 as [s1 tr1 fs1], w2 as [s2 tr2 fs2]; cbn [self trace faults].
  intros Hbuf <-.
  rewrite !follows_show, !show_script_writes.
  rewrite (show_writes_prefix (buffer s1)), (show_writes_prefix (buffer s2)), Hbuf.
  destruct (unroll _ fs1) as [[evs fs'] r]. cbn [settle].
  exists (match r with None => Ok tt | Some e => Raise e end), evs, fs'.
  split; reflexivity.
Qed.

(** ** The theorems at work on a constructed driver *)

Example clamp_samples : map clamp [-50; 0; 64; 127; 300] = [0; 0; 64; 127; 127].
Proof. reflexivity. Qed.

Example volume_byte_samples :
  map (fun v => Z.lor CMD_SET_VOLUME_SECOND (Z.land (clamp v) 0x3F)) [0; 63; 64; 127]
  = [0; 63; 0; 63].
Proof. reflexivity. Qed.

Example fresh_object :
  _reset_pin (self fresh) = true
  /\ length (buffer (self fresh)) = Z.to_nat 8192
  /\ _contrast (self fresh) = Some 0
  /\ _invert (self fresh) = false
  /\ length (trace fresh) = 58%nat.
Proof. vm_compute. repeat split. Qed.

Example show_first_page_writes :
  firstn 5 (bus_writes false (trace (snd (show (mkWorld (self fresh) [] [])))))
  = [(false, [0xB0], None); (false, [0x00], None); (false, [0x10], None);
     (true, repeat 0 128, None); (false, [0xB1], None)].
Proof. vm_compute. reflexivity. Qed.

Example write_cmd_out_of_range :
  write_cmd 300 (mkWorld blank [] [])
  = (Raise Py.ValueError, mkWorld blank [SetValue DC false; SpiEnter; SpiExit] []).
Proof. reflexivity. Qed.

Lemma fresh_healthy : healthy (faults fresh).
Proof. vm_compute. constructor. Defined.

Lemma show_sends_every_page_witness :
  healthy (faults fresh)
  /\ (Z.to_nat (LCDWIDTH * LCDHEIGHT / 8) <= length (buffer (self fresh)))%nat
  /\ show fresh =
     (Ok tt,
      mkWorld (self fresh)
              (trace fresh ++ flat_map (page_transfer (buffer (self fresh))) (seq 0 8))
              (skipn 32 (faults fresh))).
Proof.
  assert (H2 : (Z.to_nat (LCDWIDTH * LCDHEIGHT / 8)
                <= length (buffer (self fresh)))%nat).
  { apply Nat.leb_le. vm_compute. reflexivity. }
  exact (conj fresh_healthy
              (conj H2 (proj1 (show_sends_every_page fresh fresh_healthy H2)))).
Defined.

Lemma init_command_order_witness :
  healthy (@nil (option Py.exn))
  /\ fst (__init__ true 200 1000000 (boot [])) = Ok tt
  /\ _contrast (self (snd (__init__ true 200 1000000 (boot [])))) = Some 127.
Proof.
  destruct (init_command_order true 200 1000000 blank [] [] (Forall_nil _))
    as (d1 & d2 & d3 & H & _).
  unfold boot. rewrite H. repeat split. constructor.
Defined.

Lemma contrast_setter_clamps_and_sends_witness :
  healthy (faults fresh)
  /\ contrast (snd (contrast_setter 300 fresh)) =
     (Ok (Some 127), snd (contrast_setter 300 fresh)).
Proof.
  exact (conj fresh_healthy
              (proj2 (contrast_setter_clamps_and_sends 300 fresh fresh_healthy))).
Defined.

Lemma show_aborts_on_bus_error_witness :
  (5 < 32)%nat
  /\ fst (show (mkWorld (self fresh) []
                        (repeat None 5 ++ [Some (Py.OSError 5); Some Py.ValueError])))
     = Raise (Py.OSError 5)
  /\ faults (snd (show (mkWorld (self fresh) []
                          (repeat None 5 ++ [Some (Py.OSError 5); Some Py.ValueError]))))
     = [Some Py.ValueError].
Proof.
  assert (H1 : (5 < 32)%nat) by lia.
  destruct (show_aborts_on_bus_error
              (mkWorld (self fresh) []
                       (repeat None 5 ++ [Some (Py.OSError 5); Some Py.ValueError]))
              5 (Py.OSError 5) [Some Py.ValueError] H1 eq_refl)
    as (evs & dc & blk & _ & H & _).
  rewrite H. repeat split. exact H1.
Defined.

Lemma invert_round_trip_witness :
  healthy (faults fresh)
  /\ invert (snd (invert_setter true fresh)) = (Ok true, snd (invert_setter true fresh)).
Proof.
  exact (conj fresh_healthy (proj2 (invert_round_trip true fresh fresh_healthy))).
Defined.

Lemma show_ignores_bytes_past_1024_witness :
  buffer (self fresh) <> buffer (self scribbled)
  /\ firstn (Z.to_nat (LCDWIDTH * LCDHEIGHT / 8)) (buffer (self fresh)) =
     firstn (Z.to_nat (LCDWIDTH * LCDHEIGHT / 8)) (buffer (self scribbled))
  /\ fst (show fresh) = fst (show scribbled)
  /\ trace (snd (show fresh)) = trace (snd (show scribbled)).
Proof.
  assert (H0 : buffer (self fresh) <> buffer (self scribbled)).
  { intros H. apply (f_equal (fun l => nth 1024 l 0)) in H.
    vm_compute in H. discriminate H. }
  assert (H1 : firstn (Z.to_nat (LCDWIDTH * LCDHEIGHT / 8)) (buffer (self fresh)) =
               firstn (Z.to_nat (LCDWIDTH * LCDHEIGHT / 8)) (buffer (self scribbled))).
  { vm_compute. reflexivity. }
  destruct (show_ignores_bytes_past_1024 fresh scribbled H1 eq_refl)
    as (r & evs & fs' & Hshow1 & Hshow2).
  rewrite Hshow1, Hshow2. cbn [fst snd trace].
  exact (conj H0 (conj H1 (conj eq_refl eq_refl))).
Defined.

(** ** Further properties of the driver *)

Lemma write_attempts_app (a b : list event) :
  write_attempts (a ++ b) = (write_attempts a + write_attempts b)%nat.
Proof. unfold write_attempts. rewrite filter_app, length_app. reflexivity. Qed.

Lemma write_attempts_quiet (a : action) :
  (forall dc blk, a <> Transfer dc blk) -> write_attempts (events_of a) = 0%nat.
Proof.
  intros H. destruct a; try reflexivity. exfalso. exact (H _ _ eq_refl).
Qed.

(** A script facing a transport whose [k]-th write raises, [k] being
    less than the number of its transfers. *)
Lemma unroll_fault_general (p : list action) (k : nat) (e : Py.exn)
      (rest : list (option Py.exn)) :
  (k < transfers p)%nat ->
  exists evs,
    unroll p (repeat None k ++ Some e :: rest) = (evs, rest, Some e)
    /\ write_attempts evs = S k.
Proof.
  revert k; induction p as [|a p IH]; intros k Hk; [cbn in Hk; lia|].
  destruct a as [q v|b|q v|d|dc blk].
  1-4: destruct (IH k Hk) as (evs & Hevs & Hn);
       eexists; cbn [unroll]; rewrite Hevs; split; [reflexivity|];
       rewrite write_attempts_app, Hn; reflexivity.
  destruct k as [|k].
  - eexists. split; reflexivity.
  - assert (Hk' : (k < transfers p)%nat).
    { unfold transfers in *. cbn [filter length] in Hk. lia. }
    destruct (IH k Hk') as (evs & Hevs & Hn).
    eexists. cbn [unroll repeat app tl]. rewrite Hevs. split; [reflexivity|].
    rewrite write_attempts_app, Hn. reflexivity.
Qed.

(** A script facing a transport whose first [k] writes go through, [k]
    being at least the number of its transfers. *)
Lemma unroll_enough (p : list action) (k : nat) (fs : list (option Py.exn)) :
  (transfers p <= k)%nat ->
  unroll p (repeat None k ++ fs) =
  (flat_map events_of p, repeat None (k - transfers p) ++ fs, None).
Proof.
  revert k; induction p as [|a p IH]; intros k Hk.
  - cbn. rewrite Nat.sub_0_r. reflexivity.
  - destruct a as [q v|b|q v|d|dc blk].
    1-4: cbn [unroll flat_map]; rewrite (IH k Hk); reflexivity.
    unfold transfers in *. cbn [filter length] in Hk |- *.
    destruct k as [|k]; [lia|].
    cbn [unroll repeat app tl flat_map events_of].
    rewrite (IH k) by lia. reflexivity.
Qed.

(** *** X1, X2: the single command write *)

Lemma write_cmd_invalid (cmd : Z) (s : ST7565) (tr : list event)
      (fs : list (option Py.exn)) :
  Py.is_byte cmd = false ->
  write_cmd cmd (mkWorld s tr fs) =
  (Raise Py.ValueError, mkWorld s (tr ++ [SetValue DC false; SpiEnter; SpiExit]) fs).
Proof.
  intros Hb. unfold write_cmd, bind, log, with_spi, bytearray.
  cbn [forallb self trace faults]. rewrite Hb. cbn.
  rewrite <- !app_assoc. reflexivity.
Qed.

(** X1: [write_cmd] with a value outside range(256) raises ValueError
    from [bytearray] inside the device scope: the data/command line has
    been set low, the device is taken and released, no bus write is
    attempted, and the object and the transport are as before. *)
Theorem write_cmd_rejects_non_byte (cmd : Z) (w : world) :
  cmd < 0 \/ 255 < cmd ->
  write_cmd cmd w =
  (Raise Py.ValueError,
   mkWorld (self w) (trace w ++ [SetValue DC false; SpiEnter; SpiExit]) (faults w)).
Proof.
  intros H. destruct w as [s tr fs]. apply write_cmd_invalid.
  unfold Py.is_byte. destruct (Z.leb_spec 0 cmd); destruct (Z.ltb_spec cmd 256);
    try reflexivity; lia.
Qed.

Lemma write_cmd_rejects_non_byte_witness :
  (300 < 0 \/ 255 < 300)
  /\ fst (write_cmd 300 fresh) = Raise Py.ValueError
  /\ faults (snd (write_cmd 300 fresh)) = faults fresh.
Proof.
  assert (H : 300 < 0 \/ 255 < 300) by (right; reflexivity).
  rewrite (write_cmd_rejects_non_byte 300 fresh H).
  exact (conj H (conj eq_refl eq_refl)).
Defined.

(** X2: [write_cmd] with a byte makes exactly one bus write attempt with
    the data/command line low, takes one outcome from the transport,
    releases the device whether or not the write raised, raises exactly
    what the transport raised, and leaves the object as it was. *)
Theorem write_cmd_single_attempt (cmd : Z) (w : world) :
  0 <= cmd <= 255 ->
  write_cmd cmd w =
  (as_result (next_outcome (faults w)),
   mkWorld (self w)
           (trace w ++ [SetValue DC false; SpiEnter;
                        SpiWrite [cmd] (next_outcome (faults w)); SpiExit])
           (tl (faults w))).
Proof.
  intros H. destruct w as [s tr fs]. cbn [self trace faults].
  assert (Hb : Py.is_byte cmd = true).
  { unfold Py.is_byte. apply andb_true_intro. split;
      [apply Z.leb_le | apply Z.ltb_lt]; lia. }
  rewrite (follows_write_cmd s cmd Hb).
  destruct fs as [|[e|] fs]; reflexivity.
Qed.

Lemma write_cmd_single_attempt_witness :
  0 <= 0xAE <= 255
  /\ write_cmd CMD_DISPLAY_OFF
       (mkWorld blank [] [Some (Py.OSError 5); None]) =
     (Raise (Py.OSError 5),
      mkWorld blank
              [SetValue DC false; SpiEnter;
               SpiWrite [0xAE] (Some (Py.OSError 5)); SpiExit]
              [None]).
Proof.
  assert (H : 0 <= 0xAE <= 255) by (split; discriminate).
  exact (conj H (write_cmd_single_attempt
                   CMD_DISPLAY_OFF
                   (mkWorld blank [] [Some (Py.OSError 5); None]) H)).
Defined.

(** *** X3: what a call does to the object *)

Lemma perform_self (c : call) (w : world) :
  self (perform c w) =
  match c with
  | SetInvert val => with_invert (self w) val
  | SetContrast val => with_contrast (self w) (Some (clamp val))
  | _ => self w
  end.
Proof.
  destruct c; unfold perform.
  - destruct w as [s tr fs]. rewrite follows_reset, settle_self. reflexivity.
  - apply write_cmd_self.
  - destruct w as [s tr fs]. rewrite follows_show, settle_self. reflexivity.
  - reflexivity.
  - destruct w as [s tr fs]. rewrite invert_setter_runs, settle_self. reflexivity.
  - reflexivity.
  - destruct w as [s tr fs]. rewrite contrast_setter_runs, settle_self. reflexivity.
Qed.

Lemma perform_all_cons (c : call) (cs : list call) (w : world) :
  perform_all (c :: cs) w = perform_all cs (perform c w).
Proof. reflexivity. Qed.

(** X3: [reset], [write_cmd], [show] and the two getters, in any number
    and order and whatever the transport raises, leave the object as it
    is: reset-pin presence, buffer, cached contrast and invert flag. *)
Theorem readers_leave_the_object (cs : list call) (w : world) :
  forallb is_reader cs = true ->
  self (perform_all cs w) = self w.
Proof.
  revert w; induction cs as [|c cs IH]; intros w H; [reflexivity|].
  cbn [forallb] in H. apply andb_prop in H. destruct H as [Hc Hcs].
  rewrite perform_all_cons, (IH _ Hcs), perform_self.
  destruct c; try reflexivity; discriminate Hc.
Qed.

Lemma readers_leave_the_object_witness :
  forallb is_reader [CallShow; CallWriteCmd 300; CallReset; GetContrast; CallShow]
  = true
  /\ self (perform_all [CallShow; CallWriteCmd 300; CallReset; GetContrast; CallShow]
                       flaky)
     = self flaky.
Proof.
  split.
  - reflexivity.
  - apply (readers_leave_the_object
             [CallShow; CallWriteCmd 300; CallReset; GetContrast; CallShow] flaky).
    reflexivity.
Defined.

(** *** X5: the cached contrast stays in range *)



(** *** X6: invert and a failing write *)

(** X6: when the transport raises [e] on the write of the invert setter,
    the setter raises [e] after that single attempt, and the getter
    nevertheless returns the new flag: the cache is not rolled back. *)
Theorem invert_cached_despite_error (val : bool) (w : world) (e : Py.exn)
        (rest : list (option Py.exn)) :
  faults w = Some e :: rest ->
  invert_setter val w =
  (Raise e,
   mkWorld (with_invert (self w) val)
           (trace w ++ [SetValue DC false; SpiEnter;
                        SpiWrite [if val then 0xA7 else 0xA6] (Some e); SpiExit])
           rest)
  /\ fst (invert (snd (invert_setter val w))) = Ok val.
Proof.
  destruct w as [s tr fs]; cbn [self trace faults]. intros ->.
  rewrite invert_setter_runs. destruct val; split; reflexivity.
Qed.

Lemma invert_cached_despite_error_witness :
  faults (mkWorld blank [] [Some (Py.OSError 5); None]) = [Some (Py.OSError 5); None]
  /\ fst (invert (snd (invert_setter true
                         (mkWorld blank [] [Some (Py.OSError 5); None]))))
     = Ok true.
Proof.
  split.
  - reflexivity.
  - apply (invert_cached_despite_error
             true (mkWorld blank [] [Some (Py.OSError 5); None])
             (Py.OSError 5) [None]).
    reflexivity.
Defined.

(** *** X7, X8: the contrast setter *)

Lemma contrast_script_writes (val : Z) :
  contrast_script val = map transfer_of (contrast_writes val).
Proof. reflexivity. Qed.

(** X7: when the [k]-th of the two writes of the contrast setter raises
    [e], the setter raises [e]; the writes before it have gone through,
    that write is attempted once and nothing follows it (if the first
    write fails the second command is never sent), and the rest of the
    transport's outcomes is untouched. *)
Theorem contrast_setter_aborts_on_bus_error (val : Z) (w : world) (k : nat)
        (e : Py.exn) (rest : list (option Py.exn)) :
  (k < 2)%nat ->
  faults w = repeat None k ++ Some e :: rest ->
  contrast_setter val w =
  (Raise e,
   mkWorld (with_contrast (self w) (Some (clamp val)))
           (trace w
              ++ flat_map (fun t => sent (fst t) (snd t) None)
                          (firstn k (contrast_writes val))
              ++ sent false (snd (nth k (contrast_writes val) (false, []))) (Some e))
           rest).
Proof.
  destruct w as [s tr fs]; cbn [self trace faults]. intros Hk ->.
  rewrite contrast_setter_runs, contrast_script_writes, unroll_fault
    by (cbn [contrast_writes length]; lia).
  cbn [settle]. do 4 f_equal.
  destruct k as [|[|k]]; [reflexivity | reflexivity | lia].
Qed.

Lemma contrast_setter_aborts_on_bus_error_witness :
  (0 < 2)%nat
  /\ contrast_setter 40 (mkWorld blank [] [Some (Py.OSError 5); None]) =
     (Raise (Py.OSError 5),
      mkWorld (with_contrast blank (Some 40))
              [SetValue DC false; SpiEnter;
               SpiWrite [0x81] (Some (Py.OSError 5)); SpiExit]
              [None]).
Proof.
  assert (H : (0 < 2)%nat) by lia.
  exact (conj H (contrast_setter_aborts_on_bus_error
                   40 (mkWorld blank [] [Some (Py.OSError 5); None])
                   0 (Py.OSError 5) [None] H eq_refl)).
Defined.

Lemma volume_byte_upper_half (val : Z) :
  64 <= val <= 127 ->
  Z.land (clamp val) 0x3F = Z.land (clamp (val - 64)) 0x3F.
Proof.
  intros H. unfold clamp.
  rewrite (Z.min_l val) by lia. rewrite (Z.min_l (val - 64)) by lia.
  rewrite !Z.max_r by lia.
  change 0x3F with (Z.ones 6). rewrite !Z.land_ones by lia.
  change (2 ^ 6) with 64.
  replace val with (val - 64 + 1 * 64) at 1 by lia.
  apply Z.mod_add. lia.
Qed.

(** X8: only the low six bits of the clamped contrast reach the panel:
    for 64 <= val <= 127 the setter puts on the bus exactly what it puts
    for val - 64, with the same result for every transport, while the
    cache holds val in one case and val - 64 in the other. *)
Theorem contrast_upper_half_aliases (val : Z) (w : world) :
  64 <= val <= 127 ->
  exists r evs fs',
    contrast_setter val w =
      (r, mkWorld (with_contrast (self w) (Some val)) (trace w ++ evs) fs')
    /\ contrast_setter (val - 64) w =
      (r, mkWorld (with_contrast (self w) (Some (val - 64))) (trace w ++ evs) fs').
Proof.
  intros H. destruct w as [s tr fs]; cbn [self trace faults].
  assert (Hc1 : clamp val = val) by (unfold clamp; lia).
  assert (Hc2 : clamp (val - 64) = val - 64) by (unfold clamp; lia).
  assert (Hs : contrast_script (val - 64) = contrast_script val).
  { unfold contrast_script. rewrite (volume_byte_upper_half val H). reflexivity. }
  destruct (unroll (contrast_script val) fs) as [[evs fs'] r] eqn:Hu.
  exists (as_result r), evs, fs'. split.
  - rewrite contrast_setter_runs, Hu, Hc1. reflexivity.
  - rewrite contrast_setter_runs, Hs, Hu, Hc2. reflexivity.
Qed.

Lemma contrast_upper_half_aliases_witness :
  64 <= 100 <= 127
  /\ exists r evs fs',
       contrast_setter 100 (boot []) =
         (r, mkWorld (with_contrast (self (boot [])) (Some 100))
                     (trace (boot []) ++ evs) fs')
       /\ contrast_setter (100 - 64) (boot []) =
         (r, mkWorld (with_contrast (self (boot [])) (Some (100 - 64)))
                     (trace (boot []) ++ evs) fs').
Proof.
  assert (H : 64 <= 100 <= 127) by (split; discriminate).
  exact (conj H (contrast_upper_half_aliases 100 (boot []) H)).
Defined.

(** *** X4: [show()] on a buffer of any length *)

Lemma slice_page_length (buf : list Z) (page : Z) :
  In page pagemap ->
  length (Py.slice buf (Z.shiftl page 7) (Z.shiftl (page + 1) 7)) =
  Nat.min 128 (length buf - Z.to_nat page * 128).
Proof.
  intros Hin.
  assert (Hpage : 0 <= page < 8).
  { repeat (destruct Hin as [<-|Hin]; [lia|]). destruct Hin. }
  rewrite slice_nonneg by (rewrite !Z.shiftl_mul_pow2; lia).
  rewrite length_firstn, length_skipn, !Z.shiftl_mul_pow2 by lia.
  change (2 ^ 7) with 128. lia.
Qed.

(** X4: on a transport that does not fail, [show()] goes through for a
    buffer of any length, also one shorter than 8 pages: it makes its 32
    bus writes, the slices past the end of the buffer come out short or
    empty, and the data bytes sent are min(len(buffer), 1024). *)
Theorem show_sends_what_the_buffer_holds (w : world) :
  healthy (faults w) ->
  exists evs,
    show w = (Ok tt, mkWorld (self w) (trace w ++ evs) (skipn 32 (faults w)))
    /\ write_attempts evs = 32%nat
    /\ (forall dc, data_count dc evs =
                   Nat.min (length (buffer (self w)))
                           (Z.to_nat (LCDWIDTH * LCDHEIGHT / 8))).
Proof.
  change (Z.to_nat (LCDWIDTH * LCDHEIGHT / 8)) with 1024%nat.
  destruct w as [s tr fs]; cbn [self trace faults]. intros Hfs.
  exists (flat_map events_of (show_script (buffer s))).
  split; [|split].
  - rewrite follows_show, (unroll_healthy _ _ Hfs). reflexivity.
  - reflexivity.
  - intros dc. unfold show_script, pagemap.
    cbn [flat_map page_script events_of sent app data_count length].
    rewrite !(slice_page_length (buffer s)) by (cbn; tauto).
    change (Z.to_nat 0) with 0%nat. change (Z.to_nat 1) with 1%nat.
    change (Z.to_nat 2) with 2%nat. change (Z.to_nat 3) with 3%nat.
    change (Z.to_nat 4) with 4%nat. change (Z.to_nat 5) with 5%nat.
    change (Z.to_nat 6) with 6%nat. change (Z.to_nat 7) with 7%nat.
    lia.
Qed.

Lemma show_sends_what_the_buffer_holds_witness :
  healthy (faults short)
  /\ length (buffer (self short)) = 300%nat
  /\ exists evs,
       show short =
         (Ok tt, mkWorld (self short) (trace short ++ evs) (skipn 32 (faults short)))
       /\ write_attempts evs = 32%nat
       /\ (forall dc, data_count dc evs =
                      Nat.min (length (buffer (self short)))
                              (Z.to_nat (LCDWIDTH * LCDHEIGHT / 8))).
Proof.
  assert (H : healthy (faults short)) by constructor.
  exact (conj H (conj eq_refl (show_sends_what_the_buffer_holds short H))).
Defined.

(** *** X9: a bus write that raises during construction *)

Lemma transfers_power_up (reset_pin : bool) :
  transfers (reset_script reset_pin ++ power_up_script) = 10%nat.
Proof. destruct reset_pin; reflexivity. Qed.

(** X9: when the [k]-th bus write of the constructor raises [e]
    (k < 12), the constructor raises [e] after exactly k + 1 write
    attempts and leaves the rest of the transport's outcomes untouched;
    the buffer has been allocated, the invert flag is False, and the
    contrast is cached only if the failing write is one of the two
    contrast commands (k >= 10). *)
Theorem init_aborts_on_bus_error (reset_pin : bool) (contrast baudrate : Z)
        (s0 : ST7565) (tr : list event) (k : nat) (e : Py.exn)
        (rest : list (option Py.exn)) :
  (k < 12)%nat ->
  exists evs,
    __init__ reset_pin contrast baudrate
             (mkWorld s0 tr (repeat None k ++ Some e :: rest)) =
    (Raise e,
     mkWorld (mkST7565 reset_pin (Py.zeros (LCDHEIGHT * LCDWIDTH))
                       (if (k <? 10)%nat then None else Some (clamp contrast))
                       false)
             (tr ++ evs) rest)
    /\ write_attempts evs = S k.
Proof.
  intros Hk.
  destruct (unroll_fault_general (init_script reset_pin contrast baudrate) k e rest)
    as (evs & Hevs & Hn).
  { rewrite transfers_init_script. exact Hk. }
  exists evs. split; [|exact Hn].
  rewrite init_runs, Hevs. cbn [settle]. unfold init_object.
  destruct (Nat.ltb_spec k 10) as [Hlt|Hge].
  - destruct (unroll_fault_general (reset_script reset_pin ++ power_up_script)
                                   k e rest) as (evs' & Hevs' & _).
    { rewrite transfers_power_up. exact Hlt. }
    rewrite Hevs'. reflexivity.
  - rewrite unroll_enough by (rewrite transfers_power_up; exact Hge).
    reflexivity.
Qed.

Lemma init_aborts_on_bus_error_witness :
  (4 < 12)%nat
  /\ exists evs,
       __init__ false 30 1000000
                (mkWorld blank [] (repeat None 4 ++ Some (Py.OSError 5) :: [None])) =
       (Raise (Py.OSError 5),
        mkWorld (mkST7565 false (Py.zeros (LCDHEIGHT * LCDWIDTH))
                          (if (4 <? 10)%nat then None else Some (clamp 30))
                          false)
                ([] ++ evs) [None])
       /\ write_attempts evs = 5%nat.
Proof.
  assert (H : (4 < 12)%nat) by lia.
  exact (conj H (init_aborts_on_bus_error false 30 1000000 blank [] 4
                                          (Py.OSError 5) [None] H)).
Defined.

(** *** X11: [show()] again after a failed [show()] *)

(** X11: the driver keeps no position between calls.  After a [show()]
    that failed at its [k]-th write, a second [show()] on a transport
    that has stopped failing starts again at page 0 and makes all 32
    writes. *)
Theorem show_again_starts_over (w : world) (k : nat) (e : Py.exn)
        (rest : list (option Py.exn)) :
  (k < 32)%nat ->
  faults w = repeat None k ++ Some e :: rest ->
  healthy rest ->
  fst (show w) = Raise e
  /\ show (snd (show w)) =
     (Ok tt,
      mkWorld (self w)
              (trace (snd (show w))
                 ++ flat_map (fun t => sent (fst t) (snd t) None)
                             (show_writes (buffer (self w))))
              (skipn 32 rest)).
Proof.
  destruct w as [s tr fs]; cbn [self trace faults]. intros Hk -> Hrest.
  rewrite follows_show, show_script_writes, unroll_fault
    by (rewrite show_writes_length; exact Hk).
  cbn [settle fst snd trace]. split; [reflexivity|].
  rewrite follows_show, (unroll_healthy _ _ Hrest), transfers_show_script.
  cbn [settle]. reflexivity.
Qed.

Lemma show_again_starts_over_witness :
  (1 < 32)%nat
  /\ faults flaky = repeat None 1 ++ Some (Py.OSError 5) :: []
  /\ healthy (@nil (option Py.exn))
  /\ fst (show flaky) = Raise (Py.OSError 5)
  /\ fst (show (snd (show flaky))) = Ok tt.
Proof.
  assert (H1 : (1 < 32)%nat) by lia.
  assert (H3 : healthy (@nil (option Py.exn))) by constructor.
  destruct (show_again_starts_over flaky 1 (Py.OSError 5) [] H1 eq_refl H3)
    as [Ha Hb].
  rewrite Hb.
  exact (conj H1 (conj eq_refl (conj H3 (conj Ha eq_refl)))).
Defined.

(** *** X10, X12: what every log of the driver looks like *)

Lemma settle_trace (s : ST7565) (tr : list event) (o : outcome) :
  trace (snd (settle s tr o)) = tr ++ fst (fst o).
Proof. destruct o as [[evs fs] r]. reflexivity. Qed.

Section LogInvariant.

(** A property of logs that every script of good actions keeps, and
    that the aborted command write keeps. *)
Variable I : list event -> Prop.
Variable good : action -> bool.

Hypothesis I_script :
  forall p fs tr, forallb good p = true -> I tr -> I (tr ++ fst (fst (unroll p fs))).
Hypothesis I_invalid :
  forall tr, I tr -> I (tr ++ [SetValue DC false; SpiEnter; SpiExit]).
Hypothesis good_configure : forall p v, good (Configure p v) = true.
Hypothesis good_attach : forall b, good (Attach b) = true.
Hypothesis good_reset : forall v, good (Drive RST v) = true.
Hypothesis good_pause : forall d, good (Pause d) = true.
Hypothesis good_command :
  forall c, Py.is_byte c = true -> good (Transfer false [c]) = true.
Hypothesis good_page :
  forall buf page,
    In page pagemap ->
    good (Transfer true (Py.slice buf (Z.shiftl page 7) (Z.shiftl (page + 1) 7)))
    = true.

Lemma good_reset_script (b : bool) : forallb good (reset_script b) = true.
Proof.
  destruct b; cbn [reset_script forallb];
    rewrite ?good_reset, ?good_pause; reflexivity.
Qed.

Lemma good_contrast_script (val : Z) : forallb good (contrast_script val) = true.
Proof.
  unfold contrast_script. cbn [forallb].
  rewrite (good_command CMD_SET_VOLUME_FIRST eq_refl).
  rewrite (good_command _ (volume_is_byte (clamp val))). reflexivity.
Qed.

Lemma good_invert_script (val : bool) : forallb good (invert_script val) = true.
Proof.
  unfold invert_script. cbn [forallb].
  rewrite good_command; [reflexivity | destruct val; reflexivity].
Qed.

Lemma good_show_script (buf : list Z) : forallb good (show_script buf) = true.
Proof.
  unfold show_script. apply forallb_forall. intros a Ha.
  apply in_flat_map in Ha. destruct Ha as (page & Hpage & Ha).
  unfold page_script in Ha. cbn [In] in Ha.
  destruct Ha as [<-|[<-|[<-|[<-|[]]]]].
  - apply good_command, page_command_is_byte, Hpage.
  - apply good_command. reflexivity.
  - apply good_command. reflexivity.
  - apply good_page, Hpage.
Qed.

Lemma good_init_script (reset_pin : bool) (contrast baudrate : Z) :
  forallb good (init_script reset_pin contrast baudrate) = true.
Proof.
  unfold init_script. rewrite !forallb_app.
  rewrite good_reset_script, good_contrast_script.
  unfold power_up_script. cbn [forallb].
  rewrite !good_configure, !good_attach, !good_pause.
  rewrite !good_command by reflexivity.
  destruct reset_pin; cbn [forallb]; rewrite ?good_configure; reflexivity.
Qed.

Lemma perform_keeps (c : call) (w : world) : I (trace w) -> I (trace (perform c w)).
Proof.
  intros H. destruct w as [s tr fs]. cbn [trace] in H.
  destruct c; unfold perform.
  - rewrite follows_reset, settle_trace. apply I_script; [|exact H].
    apply good_reset_script.
  - destruct (Py.is_byte cmd) eqn:Hb.
    + rewrite (follows_write_cmd s cmd Hb), settle_trace.
      apply I_script; [|exact H]. cbn [forallb].
      rewrite (good_command cmd Hb). reflexivity.
    + rewrite (write_cmd_invalid cmd s tr fs Hb). apply I_invalid, H.
  - rewrite follows_show, settle_trace. apply I_script; [|exact H].
    apply good_show_script.
  - exact H.
  - rewrite invert_setter_runs, settle_trace. apply I_script; [|exact H].
    apply good_invert_script.
  - exact H.
  - rewrite contrast_setter_runs, settle_trace. apply I_script; [|exact H].
    apply good_contrast_script.
Qed.

Lemma perform_all_keeps (cs : list call) (w : world) :
  I (trace w) -> I (trace (perform_all cs w)).
Proof.
  revert w; induction cs as [|c cs IH]; intros w H; [exact H|].
  rewrite perform_all_cons. apply IH, perform_keeps, H.
Qed.

Lemma lifetime_keeps (reset_pin : bool) (contrast baudrate : Z)
      (fs : list (option Py.exn)) (cs : list call) :
  I [] ->
  I (trace (perform_all cs (snd (__init__ reset_pin contrast baudrate (boot fs))))).
Proof.
  intros H. apply perform_all_keeps. unfold boot.
  rewrite init_runs, settle_trace.
  apply (I_script _ fs [] (good_init_script reset_pin contrast baudrate) H).
Qed.

End LogInvariant.

Lemma scoped_app (ph : phase) (a b : list event) :
  scoped ph (a ++ b) =
  match scoped ph a with
  | Some ph' => scoped ph' b
  | None => None
  end.
Proof.
  revert ph; induction a as [|e a IH]; intros ph; [reflexivity|].
  cbn [app scoped]. destruct (phase_step ph e); [apply IH | reflexivity].
Qed.

Lemma unroll_scoped (p : list action) (fs : list (option Py.exn)) :
  forallb tidy p = true -> scoped Idle (fst (fst (unroll p fs))) = Some Idle.
Proof.
  revert fs; induction p as [|a p IH]; intros fs H; [reflexivity|].
  cbn [forallb] in H. apply andb_prop in H. destruct H as [Ha Hp].
  destruct a as [q v|b|q v|d|dc blk]; cbn [unroll].
  1-4: specialize (IH fs Hp); destruct (unroll p fs) as [[evs fs'] r];
       cbn [fst events_of app] in *.
  - destruct q; exact IH.
  - exact IH.
  - destruct q; [discriminate Ha | exact IH].
  - exact IH.
  - destruct fs as [|[e|] fs]; cbn [tl].
    + specialize (IH [] Hp). destruct (unroll p []) as [[evs fs'] r]. exact IH.
    + reflexivity.
    + specialize (IH fs Hp). destruct (unroll p fs) as [[evs fs'] r]. exact IH.
Qed.

Lemma well_scoped_script (p : list action) (fs : list (option Py.exn))
      (tr : list event) :
  forallb tidy p = true -> well_scoped tr ->
  well_scoped (tr ++ fst (fst (unroll p fs))).
Proof.
  unfold well_scoped. intros Hp Htr.
  rewrite scoped_app, Htr. apply unroll_scoped, Hp.
Qed.

Lemma well_scoped_invalid (tr : list event) :
  well_scoped tr -> well_scoped (tr ++ [SetValue DC false; SpiEnter; SpiExit]).
Proof.
  unfold well_scoped. intros Htr. rewrite scoped_app, Htr. reflexivity.
Qed.

(** X10: in the log of a driver's whole life (construction, then any
    calls, whatever the transport raises and whatever is passed to
    [write_cmd]) the device is taken only right after the data/command
    line has been set, at most one block is written while it is held, no
    pin is changed and no sleep is made while it is held, and it is
    released every time, also after a write or a [bytearray] that
    raised. *)
Theorem log_keeps_bus_discipline (reset_pin : bool) (contrast baudrate : Z)
        (fs : list (option Py.exn)) (cs : list call) :
  well_scoped
    (trace (perform_all cs (snd (__init__ reset_pin contrast baudrate (boot fs))))).
Proof.
  apply (lifetime_keeps well_scoped tidy well_scoped_script well_scoped_invalid);
    try reflexivity.
Qed.

Lemma shaped_writes_app (a b : list event) (dc : bool) :
  forallb shaped_write (bus_writes dc a) = true ->
  (forall dc', forallb shaped_write (bus_writes dc' b) = true) ->
  forallb shaped_write (bus_writes dc (a ++ b)) = true.
Proof.
  intros Ha Hb. revert dc Ha; induction a as [|e a IH]; intros dc Ha; [apply Hb|].
  destruct e as [q v|bd|q v|d| |blk o| ]; cbn [app bus_writes] in Ha |- *;
    try (apply IH; exact Ha).
  - destruct q; apply IH; exact Ha.
  - cbn [forallb] in Ha |- *. apply andb_prop in Ha. destruct Ha as [H1 H2].
    rewrite H1. apply IH. exact H2.
Qed.

Lemma unroll_shaped (p : list action) (fs : list (option Py.exn)) (dc : bool) :
  forallb shaped_action p = true ->
  forallb shaped_write (bus_writes dc (fst (fst (unroll p fs)))) = true.
Proof.
  revert fs dc; induction p as [|a p IH]; intros fs dc H; [reflexivity|].
  cbn [forallb] in H. apply andb_prop in H. destruct H as [Ha Hp].
  destruct a as [q v|b|q v|d|dc' blk]; cbn [unroll].
  1-4: specialize (IH fs); destruct (unroll p fs) as [[evs fs'] r];
       cbn [fst events_of app bus_writes] in *.
  - apply IH, Hp.
  - apply IH, Hp.
  - destruct q; apply IH, Hp.
  - apply IH, Hp.
  - cbn [shaped_action] in Ha.
    destruct fs as [|[e|] fs]; cbn [tl].
    + specialize (IH [] dc' Hp). destruct (unroll p []) as [[evs fs'] r].
      cbn [fst sent app bus_writes forallb] in *.
      unfold shaped_write at 1. cbn [fst snd]. rewrite Ha. exact IH.
    + cbn [fst sent bus_writes forallb]. unfold shaped_write. cbn [fst snd].
      rewrite Ha. reflexivity.
    + specialize (IH fs dc' Hp). destruct (unroll p fs) as [[evs fs'] r].
      cbn [fst sent app bus_writes forallb] in *.
      unfold shaped_write at 1. cbn [fst snd]. rewrite Ha. exact IH.
Qed.

Lemma all_shaped_script (p : list action) (fs : list (option Py.exn))
      (tr : list event) :
  forallb shaped_action p = true -> all_shaped tr ->
  all_shaped (tr ++ fst (fst (unroll p fs))).
Proof.
  intros Hp Htr dc. apply shaped_writes_app; [apply Htr|].
  intros dc'. apply unroll_shaped, Hp.
Qed.

Lemma all_shaped_invalid (tr : list event) :
  all_shaped tr -> all_shaped (tr ++ [SetValue DC false; SpiEnter; SpiExit]).
Proof.
  intros Htr dc. apply shaped_writes_app; [apply Htr|]. reflexivity.
Qed.

Lemma page_block_shaped (buf : list Z) (page : Z) :
  In page pagemap ->
  shaped_action
    (Transfer true (Py.slice buf (Z.shiftl page 7) (Z.shiftl (page + 1) 7))) = true.
Proof.
  intros Hin. cbn [shaped_action well_shaped].
  rewrite (slice_page_length buf page Hin).
  change (Z.to_nat LCDWIDTH) with 128%nat. apply Nat.leb_le. lia.
Qed.

(** X12: in the log of a driver's whole life (construction, then any
    calls, whatever the transport raises and whatever is passed to
    [write_cmd]) every bus write made with the data/command line low is
    a single byte of range(256), and every bus write made with the line
    high is a block of at most WIDTH = 128 bytes. *)
Theorem log_writes_are_well_shaped (reset_pin : bool) (contrast baudrate : Z)
        (fs : list (option Py.exn)) (cs : list call) :
  all_shaped
    (trace (perform_all cs (snd (__init__ reset_pin contrast baudrate (boot fs))))).
Proof.
  apply (lifetime_keeps all_shaped shaped_action all_shaped_script all_shaped_invalid);
    try reflexivity.
  - intros c Hc. exact Hc.
  - exact page_block_shaped.
  - intros dc. reflexivity.
Qed.

Example bus_discipline_samples :
  scoped Idle [SpiEnter] = None
  /\ scoped Idle [SetValue DC true; SpiEnter; SpiWrite [1] None; SpiWrite [2] None;
                  SpiExit] = None
  /\ scoped Idle [SetValue DC false; SpiEnter; Sleep 0.01; SpiExit] = None
  /\ scoped Idle [SetValue DC false; SpiEnter; SpiWrite [1] None] = Some Written
  /\ scoped Idle [SetValue DC false; SpiEnter; SpiWrite [1] None; SpiExit] = Some Idle.
Proof. repeat split. Qed.

Example shaped_write_samples :
  map shaped_write
      [(false, [0xAF], None); (false, [0xAF; 0xA4], None); (false, [256], None);
       (false, [], None); (true, repeat 0 128, None); (true, repeat 0 129, None);
       (true, [], Some Py.ValueError)]
  = [true; false; false; false; true; false; true].
Proof. reflexivity. Qed.

(** *** X13: what only [reset()] and the constructor do *)

Lemma unroll_bus_only (p : list action) (fs : list (option Py.exn)) :
  forallb transfer_only p = true ->
  forallb bus_only (fst (fst (unroll p fs))) = true.
Proof.
  revert fs; induction p as [|a p IH]; intros fs H; [reflexivity|].
  cbn [forallb] in H. apply andb_prop in H. destruct H as [Ha Hp].
  destruct a as [q v|b|q v|d|dc blk]; try discriminate Ha. cbn [unroll].
  destruct fs as [|[e|] fs]; cbn [tl].
  - specialize (IH [] Hp). destruct (unroll p []) as [[evs fs'] r]. exact IH.
  - reflexivity.
  - specialize (IH fs Hp). destruct (unroll p fs) as [[evs fs'] r]. exact IH.
Qed.

Lemma perform_bus_only (c : call) (w : world) :
  not_reset c = true ->
  exists evs, trace (perform c w) = trace w ++ evs /\ forallb bus_only evs = true.
Proof.
  intros Hc. destruct w as [s tr fs]. cbn [trace].
  destruct c; try discriminate Hc; unfold perform.
  - destruct (Py.is_byte cmd) eqn:Hb.
    + rewrite (follows_write_cmd s cmd Hb), settle_trace.
      eexists. split; [reflexivity|]. apply unroll_bus_only. reflexivity.
    + rewrite (write_cmd_invalid cmd s tr fs Hb).
      eexists. split; reflexivity.
  - rewrite follows_show, settle_trace.
    eexists. split; [reflexivity|]. apply unroll_bus_only. reflexivity.
  - exists []. split; [cbn; rewrite app_nil_r|]; reflexivity.
  - rewrite invert_setter_runs, settle_trace.
    eexists. split; [reflexivity|]. apply unroll_bus_only. reflexivity.
  - exists []. split; [cbn; rewrite app_nil_r|]; reflexivity.
  - rewrite contrast_setter_runs, settle_trace.
    eexists. split; [reflexivity|]. apply unroll_bus_only. reflexivity.
Qed.

(** X13: [write_cmd], [show], the getters and the setters, in any number
    and order and whatever the transport raises, add to the log nothing
    but settings of the data/command line and device scopes with their
    writes: they never touch the reset pin and never sleep. *)
Theorem only_reset_pulses_and_sleeps (cs : list call) (w : world) :
  forallb not_reset cs = true ->
  exists evs,
    trace (perform_all cs w) = trace w ++ evs /\ forallb bus_only evs = true.
Proof.
  revert w; induction cs as [|c cs IH]; intros w H.
  - exists []. split; [cbn; rewrite app_nil_r|]; reflexivity.
  - cbn [forallb] in H. apply andb_prop in H. destruct H as [Hc Hcs].
    rewrite perform_all_cons.
    destruct (perform_bus_only c w Hc) as (evs1 & Htr1 & Hb1).
    destruct (IH (perform c w) Hcs) as (evs2 & Htr2 & Hb2).
    exists (evs1 ++ evs2). split.
    + rewrite Htr2, Htr1, app_assoc. reflexivity.
    + rewrite forallb_app, Hb1, Hb2. reflexivity.
Qed.

Lemma only_reset_pulses_and_sleeps_witness :
  forallb not_reset [CallShow; SetContrast 300; CallWriteCmd 300; SetInvert true]
  = true
  /\ exists evs,
       trace (perform_all [CallShow; SetContrast 300; CallWriteCmd 300; SetInvert true]
                          flaky)
       = trace flaky ++ evs
       /\ forallb bus_only evs = true.
Proof.
  split.
  - reflexivity.
  - apply (only_reset_pulses_and_sleeps
             [CallShow; SetContrast 300; CallWriteCmd 300; SetInvert true] flaky).
    reflexivity.
Defined.
